(** * Fair-value engine of [stock_fair_value.py]: embedding and properties

    The valuation engine of class [StockValuator] is translated method by
    method.  Conventions of the embedding:

    - Numbers.  The program computes with Python numbers; here they are
      exact rationals ([Q], compared with [==]).  [max] and [min] are
      Python's two-argument builtins, which are [Qmax] and [Qmin]
      (the second argument is returned exactly when it is strictly larger,
      respectively strictly smaller).  Truthiness of a number is [x != 0].
      The two operations that raise [OverflowError], the power [x ** n]
      and the conversion of an [int] to [float], do so here as well.
      Module [Binary64] evaluates the discount step of the P/E aggregator
      in IEEE binary64, the arithmetic of Python's [float], where a
      property names a value to the last digit.
    - Dictionaries.  [self.pe_ratio_cache] and the two constant tables are
      [gmap string Q]; the [stock_data] dictionary and the result row are
      records; the provider's [info] dictionary is a record of optional
      fields ([info.get(k, d)] is [default d (k info)]) whose values, for
      the keys that [fetch_stock_data] reads as numbers, are of any of the
      kinds of [pyval].
    - Effects.  Methods run in a monad [M] that threads the cache and
      carries a raised exception; [try ... except Exception] is
      [try_except].  The data provider is a pair of functions of the
      ticker, fixed for one run.
    - Dispatch.  [process_stock] calls [self.fetch_stock_data] and
      [self.calculate_fair_value]; the record [valuator] holds these two
      methods, and [StockValuator] is the instance with the methods of the
      class.
    - The thread pool.  [run_valuation] takes the decisions of the pool as
      an argument, a [schedule]: the order in which the futures complete
      and whether the batch timeout fires.  Printing and the table display
      are left out. *)

From Stdlib Require Import QArith Qminmax Qabs Qpower Lqa Lia List ZArith Floats.
From stdpp Require Import gmap strings list.

Set Warnings "-inexact-float".

Open Scope Q_scope.

(** ** Exceptions, outcomes and the method monad *)

Inductive exn : Type :=
| StatisticsError
| ZeroDivisionError
| IndexError
| TypeError
| ValueError
| OverflowError
| TimeoutError
| ProviderError (msg : string).

Inductive outcome (A : Type) : Type :=
| Ok (a : A)
| Raise (e : exn).
Arguments Ok {A} a.
Arguments Raise {A} e.

Definition obind {A B} (o : outcome A) (k : A -> outcome B) : outcome B :=
  match o with
  | Ok a => k a
  | Raise e => Raise e
  end.

Notation "'let!' x ':=' o 'in' k" := (obind o (fun x => k))
  (at level 10, x name, o at level 100, k at level 200).

Definition raises {A} (o : outcome A) : Prop :=
  match o with Ok _ => False | Raise _ => True end.

(** [try: body except Exception: handler] for code that does not touch the
    cache. *)
Definition otry {A} (body : outcome A) (handler : exn -> outcome A) : outcome A :=
  match body with
  | Ok a => Ok a
  | Raise e => handler e
  end.

(** The P/E cache is the only attribute of [self] that is ever written. *)
Abbreviation pe_cache := (gmap string Q).

Definition M (A : Type) : Type := pe_cache -> outcome A * pe_cache.

Definition ret {A} (a : A) : M A := fun c => (Ok a, c).
Definition throw {A} (e : exn) : M A := fun c => (Raise e, c).
Definition bind {A B} (m : M A) (k : A -> M B) : M B :=
  fun c => match m c with
           | (Ok a, c') => k a c'
           | (Raise e, c') => (Raise e, c')
           end.
Definition lift {A} (o : outcome A) : M A := fun c => (o, c).
Definition try_except {A} (body : M A) (handler : exn -> M A) : M A :=
  fun c => match body c with
           | (Ok a, c') => (Ok a, c')
           | (Raise e, c') => handler e c'
           end.
Definition cache_get (k : string) : M (option Q) := fun c => (Ok (c !! k), c).
Definition cache_set (k : string) (v : Q) : M unit := fun c => (Ok tt, <[k:=v]> c).

Notation "'do!' x ':=' m 'in' k" := (bind m (fun x => k))
  (at level 10, x name, m at level 100, k at level 200).

(** ** Python numbers *)

(** [bool(x)] of a number. *)
Definition truthy (x : Q) : bool := negb (Qeq_bool x 0).

(** [bool(x)] of an optional number: [None] and [0] are false. *)
Definition truthy_opt (x : option Q) : bool :=
  match x with Some v => truthy v | None => false end.

Definition Qltb (x y : Q) : bool := negb (Qle_bool y x).

(** [a / b] on numbers. *)
Definition pydiv (a b : Q) : outcome Q :=
  if Qeq_bool b 0 then Raise ZeroDivisionError else Ok (a / b).

(** The range of a [float].  A number is converted to a [float], and a
    power [x ** n] is returned, only when its magnitude is below
    [2^1024 - 2^970], the least magnitude that rounds to infinity; from
    there on Python raises [OverflowError]. *)
Definition float_limit : Q := inject_Z (2 ^ 1024 - 2 ^ 970).

Definition in_float_range (x : Q) : bool := Qltb (Qabs x) float_limit.

(** [x ** n] for a float [x] and an integer [n]. *)
Definition pypow (x : Q) (n : Z) : outcome Q :=
  if (n <? 0)%Z && Qeq_bool x 0 then Raise ZeroDivisionError
  else if in_float_range (x ^ n) then Ok (x ^ n)
  else Raise OverflowError.

(** ** Values of the provider's dictionary

    A value stored under a key of [info]: [None], a number (an [int] or a
    finite [float]), or a string.  A string is [PyNumeral s x] when [s]
    spells the number [x], so that [float(s)] is [x], and [PyText s] when
    [float(s)] raises [ValueError]. *)
Inductive pyval : Type :=
| PyNone
| PyNum (x : Q)
| PyText (s : string)
| PyNumeral (s : string) (x : Q).

Coercion PyNum : Q >-> pyval.

(** [bool(v)] *)
Definition pytruthy (v : pyval) : bool :=
  match v with
  | PyNone => false
  | PyNum x => truthy x
  | PyText s => negb (String.eqb s "")
  | PyNumeral _ _ => true
  end.

(** [float(v)]: [None] raises [TypeError], an [int] beyond the range of a
    [float] raises [OverflowError] (a [float] is in range already), a
    string that spells no number raises [ValueError]. *)
Definition pyfloat (v : pyval) : outcome Q :=
  match v with
  | PyNone => Raise TypeError
  | PyNum x => if in_float_range x then Ok x else Raise OverflowError
  | PyText _ => Raise ValueError
  | PyNumeral _ x => Ok x
  end.

(** [v * k] for a float [k]: an [int] is converted to [float] first;
    [None] and strings raise [TypeError]. *)
Definition pymul (v : pyval) (k : Q) : outcome Q :=
  match v with
  | PyNum x => if in_float_range x then Ok (x * k) else Raise OverflowError
  | _ => Raise TypeError
  end.

(** [float(v) if v is not None else d] *)
Definition float_or (v : pyval) (d : outcome Q) : outcome Q :=
  match v with
  | PyNone => d
  | _ => pyfloat v
  end.

(** [try: body except (TypeError, ValueError): handler] *)
Definition otry_type_value {A} (body handler : outcome A) : outcome A :=
  match body with
  | Raise TypeError | Raise ValueError => handler
  | _ => body
  end.

(** [sum(xs)]: left to right from [0]. *)
Definition pysum (xs : list Q) : Q := fold_left Qplus xs 0.

(** [range(lo, hi)] *)
Definition pyrange (lo hi : Z) : list Z :=
  map (fun k => lo + Z.of_nat k)%Z (seq 0 (Z.to_nat (hi - lo))).

(** [xs[i]] for [0 <= i]. *)
Definition pyindex (xs : list Q) (i : Z) : outcome Q :=
  if (i <? 0)%Z then Raise IndexError else
  match nth_error xs (Z.to_nat i) with
  | Some v => Ok v
  | None => Raise IndexError
  end.

(** [xs[-1]] *)
Definition pylast (xs : list Q) : outcome Q :=
  match xs with
  | [] => Raise IndexError
  | x :: xs' => Ok (List.last xs' x)
  end.

(** [enumerate(xs)] *)
Definition enumerate (xs : list Q) : list (Z * Q) :=
  combine (pyrange 0 (Z.of_nat (length xs))) xs.

(** A list comprehension whose element expression may raise. *)
Fixpoint collect (os : list (outcome Q)) : outcome (list Q) :=
  match os with
  | [] => Ok []
  | o :: os' => let! v := o in let! vs := collect os' in Ok (v :: vs)
  end.

(** [sorted(xs)]: a stable insertion sort on [<]. *)
Fixpoint insert_sorted (x : Q) (l : list Q) : list Q :=
  match l with
  | [] => [x]
  | y :: l' => if Qltb y x then y :: insert_sorted x l' else x :: l
  end.

Definition sorted (l : list Q) : list Q := fold_right insert_sorted [] l.

(** ** Module [statistics] of the Python library *)

Module statistics.

(** [statistics.mean]: the exact sum divided by the length. *)
Definition mean (data : list Q) : outcome Q :=
  match data with
  | [] => Raise StatisticsError
  | _ => Ok (pysum data / inject_Z (Z.of_nat (length data)))
  end.

(** [statistics.median]: middle element of the sorted data, or the mean of
    the two middle elements. *)
Definition median (data : list Q) : outcome Q :=
  let data := sorted data in
  let n := Z.of_nat (length data) in
  if (n =? 0)%Z then Raise StatisticsError else
  if (n mod 2 =? 1)%Z then pyindex data (n / 2)
  else
    let i := (n / 2)%Z in
    let! a := pyindex data (i - 1) in
    let! b := pyindex data i in
    Ok ((a + b) / 2).

(** [statistics.quantiles(data, n=n)] with the default method
    ['exclusive']: the cut points interpolate between neighbouring order
    statistics at rank [i * (len + 1) / n]. *)
Definition quantile_at (data : list Q) (ld n i : Z) : outcome Q :=
  let m := (ld + 1)%Z in
  let j := (i * m / n)%Z in
  let j := if (j <? 1)%Z then 1%Z
           else if (j >? ld - 1)%Z then (ld - 1)%Z else j in
  let delta := (i * m - j * n)%Z in
  let! lo := pyindex data (j - 1) in
  let! hi := pyindex data j in
  Ok ((lo * inject_Z (n - delta) + hi * inject_Z delta) / inject_Z n).

Definition quantiles (data : list Q) (n : Z) : outcome (list Q) :=
  let data := sorted data in
  let ld := Z.of_nat (length data) in
  if (ld <? 2)%Z then Raise StatisticsError
  else collect (map (quantile_at data ld n) (pyrange 1 n)).

End statistics.

(** ** Configuration set by [StockValuator.__init__] *)

Definition discount_rate : Q := 0.12.
Definition max_growth_rate : Q := 0.08.
Definition terminal_growth_rate : Q := 0.08.
Definition dcf_weight : Q := 0.6.
Definition comps_weight : Q := 0.4.
Definition pe_conservative_factor : Q := 0.85.
Definition max_pe_ratio : Q := 40.
Definition min_pe_ratio : Q := 5.

Definition default_industry_pe_ratios : gmap string Q :=
  list_to_map
    [ ("Technology"%string, 22); ("Healthcare"%string, 18);
      ("Financial Services"%string, 10); ("Consumer Cyclical"%string, 16);
      ("Consumer Defensive"%string, 20); ("Energy"%string, 12);
      ("Industrials"%string, 13); ("Materials"%string, 12);
      ("Real Estate"%string, 14); ("Utilities"%string, 16);
      ("Communication Services"%string, 18); ("Default"%string, 18) ].

(** [self.default_industry_pe_ratios['Default']] *)
Definition default_sector_pe : Q :=
  default 0 (default_industry_pe_ratios !! "Default"%string).

(** [self.default_industry_pe_ratios.get(sector, ...['Default'])] *)
Definition industry_pe (sector : string) : Q :=
  default default_sector_pe (default_industry_pe_ratios !! sector).

(** [self.pe_ratio_cache = {}] *)
Definition initial_cache : pe_cache := ∅.

(** ** [aggregate_pe_ratios] *)

(** The list comprehension that keeps the ratios inside the IQR fence. *)
Definition within_bounds (lower_bound upper_bound pe : Q) : bool :=
  Qle_bool lower_bound pe && Qle_bool pe upper_bound.

(** Lines 445-456: the ratios that go on to the blend. *)
Definition remove_outliers (pe_ratios : list Q) : outcome (list Q) :=
  if (3 <=? Z.of_nat (length pe_ratios))%Z then
    let! qs1 := statistics.quantiles pe_ratios 4 in
    let! q1 := pyindex qs1 0 in
    let! qs3 := statistics.quantiles pe_ratios 4 in
    let! q3 := pyindex qs3 2 in
    let iqr := q3 - q1 in
    let lower_bound := q1 - 1.5 * iqr in
    let upper_bound := q3 + 1.5 * iqr in
    let filtered_ratios := List.filter (within_bounds lower_bound upper_bound) pe_ratios in
    match filtered_ratios with
    | [] => Ok pe_ratios
    | _ => Ok filtered_ratios
    end
  else Ok pe_ratios.

(** Lines 458-470: the weighted blend of the remaining ratios. *)
Definition blend (pe_ratios : list Q) : outcome Q :=
  if (Z.of_nat (length pe_ratios) =? 1)%Z then pyindex pe_ratios 0
  else if (Z.of_nat (length pe_ratios) =? 2)%Z then statistics.mean pe_ratios
  else
    let! median_pe := statistics.median pe_ratios in
    let! mean_pe := statistics.mean pe_ratios in
    Ok (0.6 * median_pe + 0.4 * mean_pe).

Definition aggregate_pe_ratios (pe_ratios : list Q) : outcome (option Q) :=
  match pe_ratios with
  | [] => Ok None
  | _ =>
      let! kept := remove_outliers pe_ratios in
      let! v := blend kept in
      Ok (Some v)
  end.

(** ** The dictionaries [stock_data] and the result row *)

Module stock_data.
Record t : Type := mk {
  ticker : string;
  current_price : Q;
  fcf_per_share : Q;
  eps : Q;
  book_value : Q;
  sector : string;
  growth_rate : Q;
  pe_ratio : option Q;   (* read with [stock_data.get('pe_ratio')] *)
  market_cap : pyval;    (* [info.get('marketCap', 1000000000)], unconverted *)
  company_name : string
}.
End stock_data.

Inductive status : Type := Underpriced | Overpriced | Error.

(** The row built by [process_stock].  The four money columns hold the
    numbers that the source renders with ["${x:.2f}"]. *)
Module row.
Record t : Type := mk {
  Ticker : string;
  Fair_Value : Q;
  Current_Price : Q;
  Price_Difference : Q;
  Book_Value : Q;
  Status : status;
  Price_Difference_Raw : Q
}.
End row.

(** ** The data provider

    [info] is the dictionary [yf.Ticker(ticker).info].  Every key may be
    absent ([None] here); a key that is present holds a value of any of the
    kinds of [pyval].  The keys [sector] and [longName], which the program
    only stores and uses as a dictionary key, hold a string when present.
    The three P/E keys are read with [info.get(field)] by
    [fetch_pe_from_yfinance] alone, where a key that holds [None] reads as
    an absent one; they hold a number when present. *)

Module info.
Record t : Type := mk {
  currentPrice : option pyval;
  regularMarketPrice : option pyval;
  previousClose : option pyval;
  freeCashflow : option pyval;
  operatingCashflow : option pyval;
  sharesOutstanding : option pyval;
  impliedSharesOutstanding : option pyval;
  trailingEps : option pyval;
  forwardEps : option pyval;
  dilutedEPS : option pyval;
  bookValue : option pyval;
  tangibleBookValue : option pyval;
  sector : option string;
  earningsGrowth : option pyval;
  revenueGrowth : option pyval;
  marketCap : option pyval;
  longName : option string;
  trailingPE : option Q;
  forwardPE : option Q;
  priceToEarningsRatio : option Q
}.

(** A dictionary without any key. *)
Definition empty : t :=
  mk None None None None None None None None None None
     None None None None None None None None None None.
End info.

(** The table [fallback_pe_ratios] of [fetch_pe_from_local_data]. *)
Definition fallback_pe_ratios : gmap string Q :=
  list_to_map
    [ ("AAPL"%string, 24.2); ("MSFT"%string, 27.3); ("GOOGL"%string, 19.4);
      ("AMZN"%string, 38.4); ("NVDA"%string, 55.5); ("META"%string, 20.5);
      ("TSLA"%string, 49.9); ("BRK-B"%string, 8.3); ("UNH"%string, 15.7);
      ("JNJ"%string, 12.9); ("JPM"%string, 11.8); ("V"%string, 31.2);
      ("PG"%string, 24.6); ("HD"%string, 18.9); ("MA"%string, 29.7);
      ("BAC"%string, 12.4); ("ABBV"%string, 13.8); ("PFE"%string, 11.5);
      ("KO"%string, 22.8); ("AVGO"%string, 25.4); ("PEP"%string, 23.7);
      ("TMO"%string, 20.9); ("COST"%string, 38.2); ("WMT"%string, 25.1);
      ("MRK"%string, 14.6); ("DIS"%string, 32.8); ("ACN"%string, 23.4);
      ("VZ"%string, 9.2); ("ADBE"%string, 41.7); ("NFLX"%string, 28.5);
      ("NKE"%string, 26.9); ("CRM"%string, 45.3); ("DHR"%string, 22.8);
      ("LIN"%string, 19.7); ("TXN"%string, 21.3); ("NEE"%string, 19.8);
      ("ABT"%string, 18.5); ("ORCL"%string, 22.1); ("PM"%string, 16.4);
      ("RTX"%string, 15.2); ("QCOM"%string, 14.8); ("HON"%string, 21.7);
      ("WFC"%string, 10.9); ("UPS"%string, 17.6); ("T"%string, 8.7);
      ("LOW"%string, 19.4); ("SPGI"%string, 34.5); ("ELV"%string, 13.2);
      ("SCHW"%string, 18.9); ("CAT"%string, 14.7) ].

Section Engine.

(** [yf_info ticker] is the result of reading [yf.Ticker(ticker).info],
    [yf_download ticker] the [Close] column of
    [yf.download(ticker, period='1d')]; either call may raise. *)
Variable yf_info : string -> outcome info.t.
Variable yf_download : string -> outcome (list Q).

(** *** The P/E sources *)

(** [pe_ratio and pe_ratio > 0 and pe_ratio < 150] *)
Definition usable_pe (pe_ratio : option Q) : bool :=
  match pe_ratio with
  | Some v => truthy v && Qltb 0 v && Qltb v 150
  | None => false
  end.

(** The loop over [pe_fields]: the first usable value is returned. *)
Fixpoint first_usable_pe (values : list (option Q)) : option Q :=
  match values with
  | [] => None
  | pe_ratio :: rest =>
      if usable_pe pe_ratio then pe_ratio else first_usable_pe rest
  end.

Definition fetch_pe_from_yfinance (ticker : string) : outcome (option Q) :=
  otry
    (let! i := yf_info ticker in
     let pe_fields := [info.trailingPE; info.forwardPE; info.priceToEarningsRatio] in
     Ok (first_usable_pe (map (fun field => field i) pe_fields)))
    (fun _ => Ok None).

Definition fetch_pe_from_local_data (ticker : string) : outcome (option Q) :=
  otry
    (let pe_ratio := fallback_pe_ratios !! ticker in
     if truthy_opt pe_ratio then Ok pe_ratio else Ok None)
    (fun _ => Ok None).

(** The sources that are not commented out in the list [pe_sources]. *)
Definition pe_sources : list (string -> outcome (option Q)) :=
  [fetch_pe_from_yfinance; fetch_pe_from_local_data].

(** The loop over [pe_sources]: a source that raises is skipped, the
    truthy answers are appended in order. *)
Fixpoint query_sources (sources : list (string -> outcome (option Q)))
    (ticker : string) : list Q :=
  match sources with
  | [] => []
  | fetch_func :: rest =>
      match fetch_func ticker with
      | Ok (Some pe_ratio) =>
          if truthy pe_ratio then pe_ratio :: query_sources rest ticker
          else query_sources rest ticker
      | Ok None => query_sources rest ticker
      | Raise _ => query_sources rest ticker
      end
  end.

(** Lines 517-518: the flat discount and the clamp. *)
Definition conservative_adjustment (aggregated_pe : Q) : Q :=
  let conservative_pe := aggregated_pe * pe_conservative_factor in
  Qmax min_pe_ratio (Qmin conservative_pe max_pe_ratio).

Definition fetch_pe_ratio_multi_source (ticker : string) : M (option Q) :=
  do! cached := cache_get ticker in
  match cached with
  | Some v => ret (Some v)
  | None =>
      let pe_ratios := query_sources pe_sources ticker in
      match pe_ratios with
      | [] => ret None
      | _ =>
          do! aggregated_pe := lift (aggregate_pe_ratios pe_ratios) in
          match aggregated_pe with
          | Some a =>
              if truthy a then
                let conservative_pe := conservative_adjustment a in
                do! _ := cache_set ticker conservative_pe in
                ret (Some conservative_pe)
              else ret None
          | None => ret None
          end
      end
  end.

(** *** [get_conservative_pe_estimate] *)

(** The size factor chosen by the [if]/[elif] chain on [market_cap]. *)
Definition size_factor (market_cap : Q) : Q :=
  if Qltb 500000000000 market_cap then 0.95
  else if Qltb 100000000000 market_cap then 0.98
  else if Qltb market_cap 10000000000 then 0.85
  else 0.92.

(** The list [pe_estimates] just before the median is taken. *)
Definition pe_estimates_of (multi_source_pe : option Q) (sector : string)
    (market_cap : option Q) : list Q :=
  let pe_estimates := [] in
  let pe_estimates :=
    match multi_source_pe with
    | Some v => if truthy v then pe_estimates ++ [v] else pe_estimates
    | None => pe_estimates
    end in
  let industry_pe := industry_pe sector in
  let pe_estimates := pe_estimates ++ [industry_pe] in
  match market_cap with
  | Some mc =>
      if truthy mc then
        let size_adjusted_pe := industry_pe * size_factor mc in
        pe_estimates ++ [size_adjusted_pe]
      else pe_estimates
  | None => pe_estimates
  end.

(** [pe_estimates.sort(); pe_estimates[len(pe_estimates)//2]], or the
    only estimate. *)
Definition pick_estimate (pe_estimates : list Q) : outcome Q :=
  if (2 <=? Z.of_nat (length pe_estimates))%Z then
    let pe_estimates := sorted pe_estimates in
    pyindex pe_estimates (Z.of_nat (length pe_estimates) / 2)
  else pyindex pe_estimates 0.

Definition get_conservative_pe_estimate (ticker sector : string)
    (market_cap : option Q) : M Q :=
  do! multi_source_pe := fetch_pe_ratio_multi_source ticker in
  let pe_estimates := pe_estimates_of multi_source_pe sector market_cap in
  do! final_pe := lift (pick_estimate pe_estimates) in
  let final_pe := Qmax min_pe_ratio (Qmin final_pe max_pe_ratio) in
  ret final_pe.

(** *** [get_industry_pe_ratio] *)

Definition get_industry_pe_ratio (sector : string) (ticker : option string) : M Q :=
  match ticker with
  | Some t =>
      if bool_decide (t = ""%string) then ret (industry_pe sector)
      else
        do! multi_source_pe := fetch_pe_ratio_multi_source t in
        match multi_source_pe with
        | Some v => if truthy v then ret v else ret (industry_pe sector)
        | None => ret (industry_pe sector)
        end
  | None => ret (industry_pe sector)
  end.

(** *** [fetch_stock_data] *)

(** [session_data['Close'].iloc[-1]] when the frame has a row. *)
Definition last_close (closes : list Q) : option Q :=
  match closes with
  | [] => None
  | x :: xs => Some (List.last xs x)
  end.

(** [info.get('currentPrice', info.get('regularMarketPrice',
    info.get('previousClose', 100)))]: the first key that is present, with
    whatever it holds. *)
Definition info_price (i : info.t) : pyval :=
  default (default (default (PyNum 100) (info.previousClose i))
             (info.regularMarketPrice i)) (info.currentPrice i).

(** [current_price] after the block "Get current price": the last close,
    as a [float], unless there is none or it is zero. *)
Definition live_price (closes : list Q) (i : info.t) : pyval :=
  match last_close closes with
  | Some p => if Qeq_bool p 0 then info_price i else PyNum p
  | None => info_price i
  end.

(** [max(lo, current_price * k)] *)
Definition price_floor (lo : Q) (current_price : pyval) (k : Q) : outcome Q :=
  let! scaled := pymul current_price k in
  Ok (Qmax lo scaled).

(** [free_cash_flow] and [shares_outstanding] as read from [info]. *)
Definition info_fcf (i : info.t) : pyval :=
  default (default (PyNum 0) (info.operatingCashflow i)) (info.freeCashflow i).

Definition info_shares (i : info.t) : pyval :=
  default (default (PyNum 1000000000) (info.impliedSharesOutstanding i))
    (info.sharesOutstanding i).

(** The block "Calculate FCF per share". *)
Definition live_fcf_per_share (i : info.t) (current_price : pyval) : outcome Q :=
  let free_cash_flow := info_fcf i in
  let shares_outstanding := info_shares i in
  otry_type_value
    (let! fcf_value := float_or free_cash_flow (Ok 0) in
     let! shares_value := float_or shares_outstanding (Ok 0) in
     if truthy fcf_value && truthy shares_value && Qltb 0 shares_value
     then pydiv fcf_value shares_value
     else price_floor 2.0 current_price 0.05)
    (price_floor 2.0 current_price 0.05).

(** The block "Get EPS".  The innermost default of the [info.get] chain is
    an argument, so it is evaluated before the chain is read. *)
Definition live_eps (i : info.t) (current_price : pyval) : outcome Q :=
  otry_type_value
    (let! fallback := price_floor 1.0 current_price 0.03 in
     let eps_raw :=
       default (default (default (PyNum fallback) (info.dilutedEPS i))
                  (info.forwardEps i)) (info.trailingEps i) in
     float_or eps_raw (price_floor 1.0 current_price 0.03))
    (price_floor 1.0 current_price 0.03).

(** The block "Get book value per share". *)
Definition live_book_value (i : info.t) (current_price : pyval) : outcome Q :=
  otry_type_value
    (let! fallback := price_floor 5.0 current_price 0.2 in
     let book_value_raw :=
       default (default (PyNum fallback) (info.tangibleBookValue i))
         (info.bookValue i) in
     float_or book_value_raw (price_floor 5.0 current_price 0.2))
    (price_floor 5.0 current_price 0.2).

(** The block "Get growth rate estimate". *)
Definition live_growth_rate (i : info.t) : outcome Q :=
  otry_type_value
    (let earnings_growth_raw :=
       default (default (PyNum 0.05) (info.revenueGrowth i)) (info.earningsGrowth i) in
     let! earnings_growth := float_or earnings_growth_raw (Ok 0.05) in
     Ok (if truthy earnings_growth
         then Qmin (Qabs earnings_growth) max_growth_rate
         else 0.05))
    (Ok 0.05).

(** The call [self.get_conservative_pe_estimate(ticker, sector,
    info.get('marketCap'))].  The method tests [if market_cap:] and then
    compares [market_cap] with integers: [None] and the empty string fail
    the test; any other string passes it and raises [TypeError] in the
    first comparison, which comes after the multi-source fetch. *)
Definition estimate_for_market_cap (ticker sector : string)
    (market_cap : option pyval) : M Q :=
  match market_cap with
  | None => get_conservative_pe_estimate ticker sector None
  | Some (PyNum x) => get_conservative_pe_estimate ticker sector (Some x)
  | Some v =>
      if pytruthy v then
        do! _ := fetch_pe_ratio_multi_source ticker in
        throw TypeError
      else get_conservative_pe_estimate ticker sector None
  end.

(** The body of the outer [try].  An exception that an inner handler does
    not catch, or that an inner handler raises itself, leaves it. *)
Definition fetch_live (ticker : string) : M stock_data.t :=
  do! session_data := lift (yf_download ticker) in
  do! i := lift (yf_info ticker) in
  let current_price := live_price session_data i in
  do! fcf_per_share := lift (live_fcf_per_share i current_price) in
  do! eps := lift (live_eps i current_price) in
  do! book_value := lift (live_book_value i current_price) in
  let sector := default "Default"%string (info.sector i) in
  do! growth_rate := lift (live_growth_rate i) in
  do! pe_ratio := estimate_for_market_cap ticker sector (info.marketCap i) in
  do! current_price := lift (pyfloat current_price) in
  ret {| stock_data.ticker := ticker;
         stock_data.current_price := current_price;
         stock_data.fcf_per_share := fcf_per_share;
         stock_data.eps := if truthy eps then eps else 1.0;
         stock_data.book_value := book_value;
         stock_data.sector := sector;
         stock_data.growth_rate := growth_rate;
         stock_data.pe_ratio := Some pe_ratio;
         stock_data.market_cap := default (PyNum 1000000000) (info.marketCap i);
         stock_data.company_name := default ticker (info.longName i) |}.

(** The [except Exception] handler of [fetch_stock_data]. *)
Definition fetch_fallback (ticker : string) : M stock_data.t :=
  let fallback_sector := "Technology"%string in
  do! fallback_pe :=
    get_conservative_pe_estimate ticker fallback_sector (Some 150000000000) in
  ret {| stock_data.ticker := ticker;
         stock_data.current_price := 150.0;
         stock_data.fcf_per_share := 8.0;
         stock_data.eps := 4.0;
         stock_data.book_value := 25.0;
         stock_data.sector := fallback_sector;
         stock_data.growth_rate := 0.06;
         stock_data.pe_ratio := Some fallback_pe;
         stock_data.market_cap := 150000000000;
         stock_data.company_name := ticker |}.

Definition fetch_stock_data (ticker : string) : M stock_data.t :=
  try_except (fetch_live ticker) (fun _ => fetch_fallback ticker).

End Engine.

(** ** The valuation calculator *)

(** The body of the [try] of [calculate_dcf_value].  Its failure point is
    [(1 + growth_rate) ** year], which raises [OverflowError] when the
    power leaves the range of a [float]; the handler then returns the book
    value. *)
Definition dcf_try (sd : stock_data.t) : outcome Q :=
  let fcf_per_share := stock_data.fcf_per_share sd in
  let growth_rate := stock_data.growth_rate sd in
  let fcf_per_share := if Qle_bool fcf_per_share 0 then 2.0 else fcf_per_share in
  let! projected_fcf :=
    collect (map (fun year =>
                    let! growth := pypow (1 + growth_rate) year in
                    Ok (fcf_per_share * growth))
               (pyrange 1 6)) in
  let! discounted :=
    collect (map (fun '(i, fcf) =>
                    let! discount := pypow (1 + discount_rate) (i + 1) in
                    pydiv fcf discount)
               (enumerate projected_fcf)) in
  let pv_fcf := pysum discounted in
  let! fcf_year_5 := pylast projected_fcf in
  let terminal_fcf := fcf_year_5 * (1 + terminal_growth_rate) in
  let! terminal_value := pydiv terminal_fcf (discount_rate - terminal_growth_rate) in
  let! discount := pypow (1 + discount_rate) 5 in
  let! pv_terminal_value := pydiv terminal_value discount in
  let dcf_value := pv_fcf + pv_terminal_value in
  Ok (Qmax dcf_value (stock_data.book_value sd)).

Definition calculate_dcf_value (sd : stock_data.t) : Q :=
  match dcf_try sd with
  | Ok v => v
  | Raise _ => stock_data.book_value sd
  end.

(** The body of the [try] of [calculate_comps_value]. *)
Definition comps_try (sd : stock_data.t) : outcome Q :=
  let eps := stock_data.eps sd in
  let pe_ratio := stock_data.pe_ratio sd in
  let pe_ratio :=
    match pe_ratio with
    | Some v => if truthy v then v else industry_pe (stock_data.sector sd)
    | None => industry_pe (stock_data.sector sd)
    end in
  let eps := if Qle_bool eps 0 then 1.0 else eps in
  let comps_value := eps * pe_ratio in
  Ok (Qmax comps_value (stock_data.book_value sd)).

Definition calculate_comps_value (sd : stock_data.t) : Q :=
  match comps_try sd with
  | Ok v => v
  | Raise _ => stock_data.book_value sd
  end.

Definition calculate_fair_value (sd : stock_data.t) : Q :=
  let dcf_value := calculate_dcf_value sd in
  let comps_value := calculate_comps_value sd in
  let fair_value := dcf_value * dcf_weight + comps_value * comps_weight in
  Qmax fair_value (stock_data.book_value sd).

Definition determine_status (fair_value current_price : Q) : status :=
  if Qltb current_price fair_value then Underpriced else Overpriced.

(** ** The batch orchestrator *)

(** The methods that [process_stock] looks up on [self]; either may raise. *)
Record valuator : Type := {
  self_fetch_stock_data : string -> M stock_data.t;
  self_calculate_fair_value : stock_data.t -> outcome Q
}.

(** The row of the [except] branches of [process_stock] and [run_valuation]. *)
Definition error_row (ticker : string) : row.t :=
  {| row.Ticker := ticker;
     row.Fair_Value := 0;
     row.Current_Price := 0;
     row.Price_Difference := 0;
     row.Book_Value := 0;
     row.Status := Error;
     row.Price_Difference_Raw := 0 |}.

(** The body of the [try] of [process_stock]. *)
Definition process_try (self : valuator) (ticker : string) : M row.t :=
  do! sd := self_fetch_stock_data self ticker in
  do! fair_value := lift (self_calculate_fair_value self sd) in
  let status := determine_status fair_value (stock_data.current_price sd) in
  let price_difference := fair_value - stock_data.current_price sd in
  ret {| row.Ticker := ticker;
         row.Fair_Value := fair_value;
         row.Current_Price := stock_data.current_price sd;
         row.Price_Difference := price_difference;
         row.Book_Value := stock_data.book_value sd;
         row.Status := status;
         row.Price_Difference_Raw := price_difference |}.

Definition process_stock (self : valuator) (ticker : string) (index total : Z)
    : M row.t :=
  try_except (process_try self ticker) (fun _ => ret (error_row ticker)).

(** *** The thread pool

    What a run of the pool decides and the program does not: the order in
    which the futures complete, and whether the 300 seconds of
    [as_completed] run out.  [picks] chooses, one future at a time, which of
    the futures still pending completes next (the one at position
    [pick mod n] among the [n] pending ones; an exhausted list picks the
    first), so that every value of [picks] is a completion order.
    [batch_timeout = Some k] is a run in which the timeout fires when [k]
    futures have been yielded; it can fire only while a future is still
    pending.

    A worker's call of [process_stock] is taken as one step on the shared
    cache, and the calls take effect in the order in which they
    complete. *)
Record schedule : Type := {
  picks : list nat;
  batch_timeout : option nat
}.

(** The futures in the order in which [as_completed] yields them. *)
Fixpoint as_completed {A} (n : nat) (pending : list A) (picks : list nat)
    : list A :=
  match n with
  | O => []
  | S n' =>
      let k := (hd 0%nat picks mod length pending)%nat in
      match pending !! k with
      | Some future => future :: as_completed n' (delete k pending) (tl picks)
      | None => []
      end
  end.

(** The body of [for future in as_completed(...)]: one row per yielded
    future, the fallback row when [future.result()] raises. *)
Fixpoint collect_rows (self : valuator) (jobs : list (Z * string)) (total : Z)
    : M (list row.t) :=
  match jobs with
  | [] => ret []
  | (i, ticker) :: rest =>
      do! result := try_except (process_stock self ticker i total)
                      (fun _ => ret (error_row ticker)) in
      do! results := collect_rows self rest total in
      ret (result :: results)
  end.

Definition enumerate_tickers (tickers : list string) : list (Z * string) :=
  combine (pyrange 0 (Z.of_nat (length tickers))) tickers.

(** The futures that are not yielded because the timeout has fired: leaving
    the [with] block waits for the workers, so [process_stock] still runs;
    what it returns stays in the future, unread. *)
Fixpoint run_unread (self : valuator) (jobs : list (Z * string)) (total : Z)
    : M unit :=
  match jobs with
  | [] => ret tt
  | (i, ticker) :: rest =>
      fun c => run_unread self rest total (process_stock self ticker i total c).2
  end.

(** [as_completed(future_to_ticker, timeout=300)] raises [TimeoutError]
    from the [for] statement, outside the [try], so it leaves
    [run_valuation] and the rows collected so far are lost. *)
Definition run_valuation (self : valuator) (fortune_500_tickers : list string)
    (pool : schedule) : M (list row.t) :=
  let total := Z.of_nat (length fortune_500_tickers) in
  let futures :=
    as_completed (length fortune_500_tickers)
      (enumerate_tickers fortune_500_tickers) (picks pool) in
  match batch_timeout pool with
  | Some k =>
      if (k <? length fortune_500_tickers)%nat then
        do! _ := collect_rows self (take k futures) total in
        do! _ := run_unread self (drop k futures) total in
        throw TimeoutError
      else collect_rows self futures total
  | None => collect_rows self futures total
  end.

(** The methods of [StockValuator] itself. *)
Definition StockValuator (yf_info : string -> outcome info.t)
    (yf_download : string -> outcome (list Q)) : valuator :=
  {| self_fetch_stock_data := fetch_stock_data yf_info yf_download;
     self_calculate_fair_value := fun sd => Ok (calculate_fair_value sd) |}.

(** * Predicates and specification-side definitions *)

(** [sorted] puts its argument in non-decreasing order. *)
Inductive ascending : list Q -> Prop :=
| ascending_nil : ascending []
| ascending_cons x l :
    (forall y, In y l -> x <= y) -> ascending l -> ascending (x :: l).

(** The three ways in which [fetch_pe_ratio_multi_source] ends: a cache
    hit, no source with an answer, or a fresh estimate that is cached. *)
Inductive multi_source_case (yf_info : string -> outcome info.t)
    (ticker : string) (c : pe_cache)
    : outcome (option Q) * pe_cache -> Prop :=
| cache_hit v :
    c !! ticker = Some v ->
    multi_source_case yf_info ticker c (Ok (Some v), c)
| no_source :
    c !! ticker = None ->
    query_sources (pe_sources yf_info) ticker = [] ->
    multi_source_case yf_info ticker c (Ok None, c)
| aggregated a :
    c !! ticker = None ->
    query_sources (pe_sources yf_info) ticker <> [] ->
    aggregate_pe_ratios (query_sources (pe_sources yf_info) ticker) = Ok (Some a) ->
    0 < a ->
    multi_source_case yf_info ticker c
      (Ok (Some (conservative_adjustment a)),
       <[ticker := conservative_adjustment a]> c).

(** [returns m]: from every cache, [m] ends without an exception. *)
Definition returns {A} (m : M A) : Prop :=
  forall c, exists a c', m c = (Ok a, c').

(** Every entry of the cache lies in [[min_pe_ratio, max_pe_ratio]]. *)
Definition cache_ok (c : pe_cache) : Prop :=
  forall k v, c !! k = Some v -> 5 <= v <= 40.

(** [keeps m]: [m] leaves a bounded cache bounded, however it ends. *)
Definition keeps {A} (m : M A) : Prop :=
  forall c, cache_ok c -> cache_ok (m c).2.

(** The powers [(1 + growth_rate) ** year] of the five projected years are
    inside the range of a [float]. *)
Definition growth_in_range (growth_rate : Q) : Prop :=
  forall year, (1 <= year <= 5)%Z ->
    in_float_range ((1 + growth_rate) ^ year) = true.

(** The DCF value as the specification words it: the present value of the
    cash flows of years 1 to [years], ... *)
Fixpoint pv_of_years (fcf growth_rate : Q) (years : nat) : Q :=
  match years with
  | O => 0
  | S k =>
      pv_of_years fcf growth_rate k
      + fcf * (1 + growth_rate) ^ Z.of_nat (S k) / 1.12 ^ Z.of_nat (S k)
  end.

(** ... plus the discounted Gordon terminal value, floored at book value. *)
Definition dcf_formula (fcf_per_share growth_rate book_value : Q) : Q :=
  let fcf := if Qle_bool fcf_per_share 0 then 2 else fcf_per_share in
  let fcf_year_5 := fcf * (1 + growth_rate) ^ 5 in
  Qmax (pv_of_years fcf growth_rate 5
        + fcf_year_5 * 1.08 / (0.12 - 0.08) / 1.12 ^ 5)
       book_value.

(** The record of the DCF-floor example: [fcf_per_share = -5] and
    [book_value = 50], the other fields free. *)
Definition dcf_floor_record (ticker : string) (current_price eps : Q)
    (sector : string) (growth_rate : Q) (pe_ratio : option Q) (market_cap : Q)
    : stock_data.t :=
  {| stock_data.ticker := ticker;
     stock_data.current_price := current_price;
     stock_data.fcf_per_share := -5;
     stock_data.eps := eps;
     stock_data.book_value := 50;
     stock_data.sector := sector;
     stock_data.growth_rate := growth_rate;
     stock_data.pe_ratio := pe_ratio;
     stock_data.market_cap := market_cap;
     stock_data.company_name := ticker |}.

(** ** The discount step in binary64

    [aggregated_pe * self.pe_conservative_factor] followed by
    [max(self.min_pe_ratio, min(conservative_pe, self.max_pe_ratio))],
    lines 517-518, on IEEE double-precision numbers with round-to-nearest
    arithmetic, which is what Python's [float] is. *)

Module Binary64.

(** [max(a, b)]: [b] when [b > a], else [a]. *)
Definition pymax (a b : float) : float := if PrimFloat.ltb a b then b else a.

(** [min(a, b)]: [b] when [b < a], else [a]. *)
Definition pymin (a b : float) : float := if PrimFloat.ltb b a then b else a.

Definition pe_conservative_factor : float := 0.85%float.
Definition max_pe_ratio : float := 40%float.
Definition min_pe_ratio : float := 5%float.

Definition conservative_adjustment (aggregated_pe : float) : float :=
  let conservative_pe := PrimFloat.mul aggregated_pe pe_conservative_factor in
  pymax min_pe_ratio (pymin conservative_pe max_pe_ratio).

End Binary64.

(** ** Providers and batches used as examples *)

(** A provider whose every call fails. *)
Definition provider_down (ticker : string) : outcome info.t :=
  Raise (ProviderError "unreachable").


(** A provider that reports a trailing P/E of 18.0 and nothing else. *)
Definition provider_pe_18 (ticker : string) : outcome info.t :=
  Ok (info.mk None None None None None None None None None None
        None None None None None None None (Some 18) None None).

(** One close at 200 and no other data. *)
Definition download_close_200 (ticker : string) : outcome (list Q) := Ok [200].


Definition five_tickers : list string :=
  ["AAPL"; "MSFT"; "BAD"; "GOOGL"; "AMZN"]%string.



(** ** Auxiliary notions for the statements *)

(** [grows m]: [m] only adds entries to the cache; what was there stays. *)
Definition grows {A} (m : M A) : Prop :=
  forall c, c ⊆ (m c).2.

(** A price that the live path can compute with: a number that a [float]
    can hold. *)
Definition usable_price (v : pyval) : Prop :=
  exists p, v = PyNum p /\ in_float_range p = true.


(** [v] is not such an [int]. *)
Definition holds_float (v : pyval) : Prop :=
  forall x, v = PyNum x -> in_float_range x = true.

(** What [float(v)] returns when it returns. *)
Definition number_of (v : pyval) : option Q :=
  match v with
  | PyNum x | PyNumeral _ x => Some x
  | PyNone | PyText _ => None
  end.

(** The value of the first EPS key that is present, of the first
    book-value key and of the first growth key. *)
Definition info_eps (i : info.t) : option pyval :=
  match info.trailingEps i, info.forwardEps i with
  | Some v, _ => Some v
  | None, Some v => Some v
  | None, None => info.dilutedEPS i
  end.

Definition info_book (i : info.t) : option pyval :=
  match info.bookValue i with
  | Some v => Some v
  | None => info.tangibleBookValue i
  end.

Definition info_growth (i : info.t) : option pyval :=
  match info.earningsGrowth i with
  | Some v => Some v
  | None => info.revenueGrowth i
  end.

(** The market cap as [get_conservative_pe_estimate] receives it when it
    is [None], a number or the empty string. *)
Definition market_cap_arg (v : option pyval) : option Q :=
  match v with
  | Some (PyNum x) => Some x
  | _ => None
  end.

(** A dictionary on which no block of the live path raises past its
    handler: none of the values read is an [int] beyond the range of a
    [float], and the market cap is not a non-empty string. *)
Definition sound_info (i : info.t) : Prop :=
  holds_float (info_fcf i) /\ holds_float (info_shares i) /\
  (forall v, info_eps i = Some v -> holds_float v) /\
  (forall v, info_book i = Some v -> holds_float v) /\
  (forall v, info_growth i = Some v -> holds_float v) /\
  (forall v, info.marketCap i = Some v ->
     (exists x, v = PyNum x) \/ pytruthy v = false).

(** The values of the four blocks of the live path for a price [p], on a
    dictionary on which no block raises past its handler. *)
Definition fcf_reading (i : info.t) (p : Q) : Q :=
  match number_of (info_fcf i), number_of (info_shares i) with
  | Some f, Some s =>
      if truthy f && truthy s && Qltb 0 s then f / s else Qmax 2.0 (p * 0.05)
  | _, _ => Qmax 2.0 (p * 0.05)
  end.

Definition eps_reading (i : info.t) (p : Q) : Q :=
  match info_eps i ≫= number_of with
  | Some e => e
  | None => Qmax 1.0 (p * 0.03)
  end.

Definition book_reading (i : info.t) (p : Q) : Q :=
  match info_book i ≫= number_of with
  | Some b => b
  | None => Qmax 5.0 (p * 0.2)
  end.

Definition growth_reading (i : info.t) : Q :=
  match info_growth i ≫= number_of with
  | Some g => if truthy g then Qmin (Qabs g) max_growth_rate else 0.05
  | None => 0.05
  end.

(** The record of the [return] of the live path. *)
Definition live_record (ticker : string) (i : info.t)
    (current_price fcf_per_share eps book_value growth_rate pe_ratio : Q)
    : stock_data.t :=
  {| stock_data.ticker := ticker;
     stock_data.current_price := current_price;
     stock_data.fcf_per_share := fcf_per_share;
     stock_data.eps := if truthy eps then eps else 1.0;
     stock_data.book_value := book_value;
     stock_data.sector := default "Default"%string (info.sector i);
     stock_data.growth_rate := growth_rate;
     stock_data.pe_ratio := Some pe_ratio;
     stock_data.market_cap := default (PyNum 1000000000) (info.marketCap i);
     stock_data.company_name := default ticker (info.longName i) |}.

(** The record of the [except Exception] handler of [fetch_stock_data]. *)
Definition synthetic (sd : stock_data.t) : Prop :=
  stock_data.current_price sd = 150.0 /\
  stock_data.fcf_per_share sd = 8.0 /\
  stock_data.eps sd = 4.0 /\
  stock_data.book_value sd = 25.0 /\
  stock_data.sector sd = "Technology"%string /\
  stock_data.growth_rate sd = 0.06 /\
  stock_data.market_cap sd = PyNum 150000000000.

(** A provider with price, cash-flow and share data. *)
Definition info_full : info.t :=
  info.mk (Some (PyNum 120)) None None (Some (PyNum 6000)) None
    (Some (PyNum 1000)) None (Some (PyNum 5)) None None (Some (PyNum 30)) None
    (Some "Energy"%string) (Some (PyNum 0.2)) None (Some (PyNum 700000000000))
    (Some "Example Corp"%string) (Some 15) None None.

Definition provider_full (ticker : string) : outcome info.t := Ok info_full.

(** A provider whose [currentPrice] key is present and holds [None], beside
    a usable [regularMarketPrice]. *)
Definition info_none_price : info.t :=
  info.mk (Some PyNone) (Some (PyNum 120)) None None None None None None None
    None None None None None None None None None None None.

Definition provider_none_price (ticker : string) : outcome info.t :=
  Ok info_none_price.

(** A provider whose [freeCashflow] key holds [None], beside a usable
    [operatingCashflow] and share count. *)
Definition info_none_fcf : info.t :=
  info.mk None None None (Some PyNone) (Some (PyNum 6000)) (Some (PyNum 1000))
    None None None None None None None None None None None None None None.

Definition provider_none_fcf (ticker : string) : outcome info.t :=
  Ok info_none_fcf.

(** A pool that completes the last submitted future first, within the
    batch timeout. *)
Definition last_first : schedule := {| picks := [4%nat]; batch_timeout := None |}.

(** No quote rows. *)
Definition download_empty (ticker : string) : outcome (list Q) := Ok [].

(** * Properties *)

(** ** Numbers, lists and outcomes *)

Lemma truthy_true (x : Q) : truthy x = true <-> ~ x == 0.
Proof.
  unfold truthy. rewrite negb_true_iff.
  split.
  - intros E H. apply Qeq_bool_iff in H. congruence.
  - intros H. destruct (Qeq_bool x 0) eqn:E; [|reflexivity].
    apply Qeq_bool_iff in E. contradiction.
Qed.

Lemma truthy_pos (x : Q) : 0 < x -> truthy x = true.
Proof. intros H. apply truthy_true. lra. Qed.

Lemma Qltb_lt (x y : Q) : Qltb x y = true <-> x < y.
Proof.
  unfold Qltb. rewrite negb_true_iff. split.
  - intros E. apply Qnot_le_lt. intros H. apply Qle_bool_iff in H. congruence.
  - intros H. destruct (Qle_bool y x) eqn:E; [|reflexivity].
    apply Qle_bool_iff in E. lra.
Qed.

Lemma Qltb_ge (x y : Q) : Qltb x y = false <-> y <= x.
Proof.
  unfold Qltb. rewrite negb_false_iff. apply Qle_bool_iff.
Qed.

Lemma pydiv_ok (a b : Q) : ~ b == 0 -> pydiv a b = Ok (a / b).
Proof.
  intros H. unfold pydiv. destruct (Qeq_bool b 0) eqn:E; [|reflexivity].
  apply Qeq_bool_iff in E. contradiction.
Qed.

(** The clamp [max(min_pe_ratio, min(x, max_pe_ratio))] lands in [[5, 40]]. *)
Lemma clamp_bounds (x : Q) :
  5 <= Qmax min_pe_ratio (Qmin x max_pe_ratio) <= 40.
Proof.
  unfold min_pe_ratio, max_pe_ratio.
  destruct (Q.min_spec x 40) as [[H1 E1] | [H1 E1]];
    destruct (Q.max_spec 5 (Qmin x 40)) as [[H2 E2] | [H2 E2]];
    rewrite E2; rewrite ?E1 in *; lra.
Qed.

(** A value that is already inside the bounds passes the clamp unchanged. *)
Lemma clamp_id (x : Q) :
  5 <= x <= 40 -> Qmax min_pe_ratio (Qmin x max_pe_ratio) == x.
Proof.
  unfold min_pe_ratio, max_pe_ratio. intros [Hl Hu].
  rewrite (Q.min_l x 40) by exact Hu. apply Q.max_r. exact Hl.
Qed.

Lemma pyindex_ok (xs : list Q) (i : Z) :
  (0 <= i < Z.of_nat (length xs))%Z ->
  exists v, pyindex xs i = Ok v /\ In v xs.
Proof.
  intros [Hlo Hhi]. unfold pyindex.
  destruct (i <? 0)%Z eqn:E; [apply Z.ltb_lt in E; lia|].
  destruct (nth_error xs (Z.to_nat i)) as [v|] eqn:N.
  - exists v. split; [reflexivity|]. eapply nth_error_In; eassumption.
  - apply nth_error_None in N. lia.
Qed.

Lemma length_insert_sorted (x : Q) (l : list Q) :
  length (insert_sorted x l) = S (length l).
Proof.
  induction l as [|y l IH]; simpl; [reflexivity|].
  destruct (Qltb y x); simpl; [rewrite IH|]; reflexivity.
Qed.

Lemma sorted_cons (x : Q) (l : list Q) :
  sorted (x :: l) = insert_sorted x (sorted l).
Proof. reflexivity. Qed.

Lemma length_sorted (l : list Q) : length (sorted l) = length l.
Proof.
  induction l as [|x l IH]; [reflexivity|].
  rewrite sorted_cons, length_insert_sorted, IH. reflexivity.
Qed.

Lemma In_insert_sorted (v x : Q) (l : list Q) :
  In v (insert_sorted x l) <-> v = x \/ In v l.
Proof.
  induction l as [|y l IH]; simpl.
  - intuition.
  - destruct (Qltb y x); simpl; rewrite ?IH; intuition.
Qed.

Lemma In_sorted (v : Q) (l : list Q) : In v (sorted l) <-> In v l.
Proof.
  induction l as [|x l IH]; [reflexivity|].
  rewrite sorted_cons, In_insert_sorted, IH. simpl. intuition.
Qed.

Lemma ascending_insert_sorted (x : Q) (l : list Q) :
  ascending l -> ascending (insert_sorted x l).
Proof.
  induction 1 as [|y l Hy Hl IH]; simpl.
  - constructor; [intros ? []|constructor].
  - destruct (Qltb y x) eqn:E.
    + apply Qltb_lt in E. constructor; [|exact IH].
      intros z Hz. apply In_insert_sorted in Hz as [->|Hz]; [lra|auto].
    + apply Qltb_ge in E. constructor; [|constructor; assumption].
      intros z [<-|Hz]; [assumption|]. specialize (Hy z Hz). lra.
Qed.

Lemma ascending_sorted (l : list Q) : ascending (sorted l).
Proof.
  induction l as [|x l IH]; [constructor|].
  rewrite sorted_cons. apply ascending_insert_sorted. exact IH.
Qed.

Lemma pysum_from (xs : list Q) (a : Q) : fold_left Qplus xs a == a + pysum xs.
Proof.
  unfold pysum. revert a.
  induction xs as [|x xs IH]; intros a; simpl; [lra|].
  rewrite (IH (a + x)), (IH (0 + x)). lra.
Qed.

Lemma pysum_cons (x : Q) (xs : list Q) : pysum (x :: xs) == x + pysum xs.
Proof. unfold pysum at 1. simpl. rewrite pysum_from. lra. Qed.

Lemma pysum_nonneg (xs : list Q) : (forall v, In v xs -> 0 < v) -> 0 <= pysum xs.
Proof.
  induction xs as [|x xs IH]; intros H.
  - unfold pysum; simpl; lra.
  - rewrite pysum_cons.
    assert (0 < x) by (apply H; left; reflexivity).
    assert (0 <= pysum xs) by (apply IH; intros; apply H; right; assumption).
    lra.
Qed.

Lemma pysum_pos (xs : list Q) :
  xs <> [] -> (forall v, In v xs -> 0 < v) -> 0 < pysum xs.
Proof.
  destruct xs as [|x xs]; [congruence|]. intros _ H.
  rewrite pysum_cons.
  assert (0 < x) by (apply H; left; reflexivity).
  assert (0 <= pysum xs) by (apply pysum_nonneg; intros; apply H; right; assumption).
  lra.
Qed.

(** ** The [statistics] functions return on the lists they are given *)

Lemma mean_ok (data : list Q) :
  data <> [] ->
  statistics.mean data = Ok (pysum data / inject_Z (Z.of_nat (length data))).
Proof. destruct data; [congruence|reflexivity]. Qed.

Lemma length_pos_Q (data : list Q) :
  data <> [] -> 0 < inject_Z (Z.of_nat (length data)).
Proof.
  intros H. destruct data as [|x xs]; [congruence|].
  change 0 with (inject_Z 0). rewrite <- Zlt_Qlt. simpl length. lia.
Qed.

Lemma mean_pos (data : list Q) :
  data <> [] -> (forall v, In v data -> 0 < v) ->
  exists m, statistics.mean data = Ok m /\ 0 < m.
Proof.
  intros Hne Hpos. rewrite (mean_ok data Hne). eexists; split; [reflexivity|].
  apply Qlt_shift_div_l; [apply length_pos_Q; assumption|].
  rewrite Qmult_0_l. apply pysum_pos; assumption.
Qed.

Lemma median_ok (data : list Q) :
  data <> [] ->
  exists m, statistics.median data = Ok m /\
    ((forall v, In v data -> 0 < v) -> 0 < m).
Proof.
  intros Hne. unfold statistics.median.
  assert (Hlen : (0 < Z.of_nat (length (sorted data)))%Z).
  { rewrite length_sorted. destruct data; [congruence|simpl length; lia]. }
  set (s := sorted data) in *. set (n := Z.of_nat (length s)) in *.
  destruct (n =? 0)%Z eqn:E0; [apply Z.eqb_eq in E0; lia|].
  destruct (n mod 2 =? 1)%Z eqn:E1.
  - destruct (pyindex_ok s (n / 2)) as (v & Hv & Hin).
    { split; [apply Z.div_pos; lia|apply Z.div_lt_upper_bound; lia]. }
    exists v. split; [exact Hv|]. intros Hpos. apply Hpos, In_sorted, Hin.
  - apply Z.eqb_neq in E1.
    assert (Hmod : (n mod 2 = 0)%Z) by (pose proof (Z.mod_pos_bound n 2); lia).
    assert (Hn : (n = 2 * (n / 2))%Z) by (rewrite (Z.div_mod n 2) at 1; lia).
    destruct (pyindex_ok s (n / 2 - 1)) as (a & Ha & Hina); [lia|].
    destruct (pyindex_ok s (n / 2)) as (b & Hb & Hinb); [lia|].
    rewrite Ha, Hb. simpl. eexists; split; [reflexivity|].
    intros Hpos.
    assert (0 < a) by (apply Hpos, In_sorted, Hina).
    assert (0 < b) by (apply Hpos, In_sorted, Hinb).
    apply Qlt_shift_div_l; lra.
Qed.

Lemma quantile_at_ok (data : list Q) (i : Z) :
  (2 <= Z.of_nat (length data))%Z ->
  exists q, statistics.quantile_at data (Z.of_nat (length data)) 4 i = Ok q.
Proof.
  intros Hlen. unfold statistics.quantile_at.
  set (ld := Z.of_nat (length data)) in *.
  set (j := if (i * (ld + 1) / 4 <? 1)%Z then 1%Z
            else if (i * (ld + 1) / 4 >? ld - 1)%Z then (ld - 1)%Z
                 else (i * (ld + 1) / 4)%Z).
  assert (Hj : (1 <= j <= ld - 1)%Z).
  { subst j. destruct (i * (ld + 1) / 4 <? 1)%Z eqn:E1; [lia|].
    apply Z.ltb_ge in E1.
    destruct (i * (ld + 1) / 4 >? ld - 1)%Z eqn:E2; [lia|].
    rewrite Z.gtb_ltb in E2. apply Z.ltb_ge in E2. lia. }
  destruct (pyindex_ok data (j - 1)) as (lo & Hlo & _); [lia|].
  destruct (pyindex_ok data j) as (hi & Hhi & _); [lia|].
  rewrite Hlo, Hhi. simpl. eexists; reflexivity.
Qed.

Lemma pyrange_1_4 : pyrange 1 4 = [1; 2; 3]%Z.
Proof. reflexivity. Qed.

Lemma quantiles_ok (data : list Q) :
  (2 <= Z.of_nat (length data))%Z ->
  exists q1 q2 q3, statistics.quantiles data 4 = Ok [q1; q2; q3].
Proof.
  intros Hlen. unfold statistics.quantiles.
  rewrite <- (length_sorted data) in Hlen.
  destruct (Z.of_nat (length (sorted data)) <? 2)%Z eqn:E;
    [apply Z.ltb_lt in E; lia|].
  rewrite pyrange_1_4.
  destruct (quantile_at_ok (sorted data) 1 Hlen) as [q1 H1].
  destruct (quantile_at_ok (sorted data) 2 Hlen) as [q2 H2].
  destruct (quantile_at_ok (sorted data) 3 Hlen) as [q3 H3].
  exists q1, q2, q3. simpl. rewrite H1, H2, H3. reflexivity.
Qed.

(** ** [aggregate_pe_ratios] returns, and what it returns *)

Lemma remove_outliers_ok (pe_ratios : list Q) :
  exists kept, remove_outliers pe_ratios = Ok kept /\
    (pe_ratios <> [] -> kept <> []) /\
    (forall v, In v kept -> In v pe_ratios) /\
    ((Z.of_nat (length pe_ratios) < 3)%Z -> kept = pe_ratios).
Proof.
  unfold remove_outliers.
  destruct (3 <=? Z.of_nat (length pe_ratios))%Z eqn:E.
  - apply Z.leb_le in E.
    destruct (quantiles_ok pe_ratios) as (q1 & q2 & q3 & Hq); [lia|].
    rewrite Hq. simpl.
    destruct (List.filter _ pe_ratios) as [|k ks] eqn:F.
    + exists pe_ratios. repeat split; auto.
    + exists (k :: ks). repeat split; try congruence; try lia.
      intros v Hv. rewrite <- F in Hv. apply filter_In in Hv. tauto.
  - apply Z.leb_gt in E. exists pe_ratios. repeat split; auto.
Qed.

Lemma blend_ok (pe_ratios : list Q) :
  pe_ratios <> [] ->
  exists v, blend pe_ratios = Ok v /\
    ((forall x, In x pe_ratios -> 0 < x) -> 0 < v).
Proof.
  intros Hne. unfold blend.
  destruct (Z.of_nat (length pe_ratios) =? 1)%Z eqn:E1.
  - destruct (pyindex_ok pe_ratios 0) as (v & Hv & Hin).
    { apply Z.eqb_eq in E1. lia. }
    exists v. split; [exact Hv|]. intros Hpos. apply Hpos, Hin.
  - destruct (Z.of_nat (length pe_ratios) =? 2)%Z eqn:E2.
    + rewrite (mean_ok _ Hne). eexists; split; [reflexivity|].
      intros Hpos. destruct (mean_pos _ Hne Hpos) as (m & Hm & Hm0).
      rewrite (mean_ok _ Hne) in Hm. injection Hm as <-. exact Hm0.
    + destruct (median_ok _ Hne) as (md & Hmd & Hmd0).
      rewrite Hmd, (mean_ok _ Hne). simpl. eexists; split; [reflexivity|].
      intros Hpos. destruct (mean_pos _ Hne Hpos) as (m & Hm & Hm0).
      rewrite (mean_ok _ Hne) in Hm. injection Hm as <-.
      specialize (Hmd0 Hpos). lra.
Qed.

Lemma aggregate_pe_ratios_ok (pe_ratios : list Q) :
  pe_ratios <> [] ->
  exists kept v,
    remove_outliers pe_ratios = Ok kept /\ kept <> [] /\
    blend kept = Ok v /\
    aggregate_pe_ratios pe_ratios = Ok (Some v) /\
    ((forall x, In x pe_ratios -> 0 < x) -> 0 < v).
Proof.
  intros Hne.
  destruct (remove_outliers_ok pe_ratios) as (kept & Hk & Hkne & Hsub & _).
  destruct (blend_ok kept (Hkne Hne)) as (v & Hv & Hpos).
  exists kept, v. repeat split; auto.
  unfold aggregate_pe_ratios. destruct pe_ratios; [congruence|].
  rewrite Hk. simpl. rewrite Hv. reflexivity.
Qed.

Lemma aggregate_pe_ratios_total (pe_ratios : list Q) :
  exists r, aggregate_pe_ratios pe_ratios = Ok r.
Proof.
  destruct pe_ratios as [|x xs] eqn:E.
  - exists None. reflexivity.
  - destruct (aggregate_pe_ratios_ok (x :: xs)) as (? & v & _ & _ & _ & H & _);
      [congruence|]. exists (Some v). exact H.
Qed.

(** ** The constant tables *)

Lemma fallback_pe_ratios_pos (ticker : string) (v : Q) :
  fallback_pe_ratios !! ticker = Some v -> 0 < v.
Proof.
  unfold fallback_pe_ratios. intros H.
  apply elem_of_list_to_map_2 in H.
  match type of H with
  | _ ∈ ?entries =>
      assert (F : Forall (fun p : string * Q => 0 < p.2) entries)
        by (repeat (constructor; [reflexivity|]); constructor)
  end.
  rewrite Forall_forall in F. exact (F _ H).
Qed.

Lemma default_industry_pe_ratios_range (sector : string) (v : Q) :
  default_industry_pe_ratios !! sector = Some v -> 10 <= v <= 22.
Proof.
  unfold default_industry_pe_ratios. intros H.
  apply elem_of_list_to_map_2 in H.
  match type of H with
  | _ ∈ ?entries =>
      assert (F : Forall (fun p : string * Q => 10 <= p.2 <= 22) entries)
        by (repeat (constructor; [split; discriminate|]); constructor)
  end.
  rewrite Forall_forall in F. exact (F _ H).
Qed.

Lemma industry_pe_range (sector : string) : 10 <= industry_pe sector <= 22.
Proof.
  unfold industry_pe.
  destruct (default_industry_pe_ratios !! sector) as [v|] eqn:E; simpl.
  - eapply default_industry_pe_ratios_range; eassumption.
  - split; discriminate.
Qed.

(** ** The P/E sources *)

Section SourceFacts.

Variable yf_info : string -> outcome info.t.
Variable yf_download : string -> outcome (list Q).

Lemma usable_pe_pos (pe_ratio : option Q) :
  usable_pe pe_ratio = true -> exists v, pe_ratio = Some v /\ 0 < v < 150.
Proof.
  destruct pe_ratio as [v|]; simpl; [|discriminate].
  rewrite !andb_true_iff. intros [[_ H1] H2].
  apply Qltb_lt in H1, H2. eauto.
Qed.

Lemma first_usable_pe_pos (values : list (option Q)) (v : Q) :
  first_usable_pe values = Some v -> 0 < v < 150.
Proof.
  induction values as [|pe rest IH]; simpl; [discriminate|].
  destruct (usable_pe pe) eqn:E; [|exact IH].
  intros ->. apply usable_pe_pos in E as (w & [= <-] & Hw). exact Hw.
Qed.

Lemma fetch_pe_from_yfinance_ok (ticker : string) :
  exists r, fetch_pe_from_yfinance yf_info ticker = Ok r /\
    (forall v, r = Some v -> 0 < v < 150).
Proof.
  unfold fetch_pe_from_yfinance. destruct (yf_info ticker) as [i|e]; cbn [otry obind].
  - eexists; split; [reflexivity|]. intros v Hv.
    eapply first_usable_pe_pos; exact Hv.
  - exists None. split; [reflexivity|discriminate].
Qed.

Lemma fetch_pe_from_local_data_ok (ticker : string) :
  exists r, fetch_pe_from_local_data ticker = Ok r /\
    (forall v, r = Some v -> 0 < v).
Proof.
  unfold fetch_pe_from_local_data. cbv zeta.
  destruct (fallback_pe_ratios !! ticker) as [v|] eqn:E; cbn [truthy_opt].
  - destruct (truthy v); cbn [otry]; eexists; (split; [reflexivity|]).
    + intros w [= <-]. eapply fallback_pe_ratios_pos; exact E.
    + discriminate.
  - exists None. split; [reflexivity|discriminate].
Qed.

(** A collected ratio is the answer of one of the sources. *)
Lemma query_sources_In (sources : list (string -> outcome (option Q)))
    (ticker : string) (v : Q) :
  In v (query_sources sources ticker) ->
  exists fetch_func, In fetch_func sources /\ fetch_func ticker = Ok (Some v).
Proof.
  induction sources as [|f rest IH]; cbn [query_sources]; [intros []|].
  destruct (f ticker) as [[w|]|e] eqn:E.
  - destruct (truthy w).
    + intros [<-|H].
      * exists f. split; [left; reflexivity|exact E].
      * destruct (IH H) as (g & Hg & Hv). exists g. split; [right; exact Hg|exact Hv].
    + intros H. destruct (IH H) as (g & Hg & Hv).
      exists g. split; [right; exact Hg|exact Hv].
  - intros H. destruct (IH H) as (g & Hg & Hv).
    exists g. split; [right; exact Hg|exact Hv].
  - intros H. destruct (IH H) as (g & Hg & Hv).
    exists g. split; [right; exact Hg|exact Hv].
Qed.

(** Every ratio that the loop over [pe_sources] collects is positive. *)
Lemma query_sources_pos (ticker : string) (v : Q) :
  In v (query_sources (pe_sources yf_info) ticker) -> 0 < v.
Proof.
  intros H. apply query_sources_In in H as (f & Hf & Hv).
  unfold pe_sources in Hf. destruct Hf as [<-|[<-|[]]].
  - destruct (fetch_pe_from_yfinance_ok ticker) as (r & Hr & Hpos).
    rewrite Hr in Hv. injection Hv as ->. apply (Hpos v eq_refl).
  - destruct (fetch_pe_from_local_data_ok ticker) as (r & Hr & Hpos).
    rewrite Hr in Hv. injection Hv as ->. apply (Hpos v eq_refl).
Qed.

(** *** What [fetch_pe_ratio_multi_source] does, by cases *)

Lemma fetch_pe_ratio_multi_source_cases (ticker : string) (c : pe_cache) :
  multi_source_case yf_info ticker c (fetch_pe_ratio_multi_source yf_info ticker c).
Proof.
  unfold fetch_pe_ratio_multi_source, bind, cache_get, cache_set, ret, lift.
  destruct (c !! ticker) as [v|] eqn:Hc.
  - apply cache_hit. exact Hc.
  - pose proof (query_sources_pos ticker) as Hpos.
    pose proof (aggregated yf_info ticker c) as Hagg.
    destruct (query_sources (pe_sources yf_info) ticker) as [|x xs] eqn:Hq.
    + apply no_source; assumption.
    + destruct (aggregate_pe_ratios_ok (x :: xs)) as (kept & a & _ & _ & _ & Ha & Ha0);
        [congruence|].
      specialize (Ha0 Hpos). rewrite Ha, (truthy_pos a Ha0).
      apply Hagg; try assumption. congruence.
Qed.

End SourceFacts.

(** ** Two properties of monadic code: it returns, it keeps the cache bounded *)

Lemma returns_ret {A} (a : A) : returns (ret a).
Proof. intros c. exists a, c. reflexivity. Qed.

Lemma returns_lift {A} (o : outcome A) : (exists a, o = Ok a) -> returns (lift o).
Proof. intros [a ->] c. exists a, c. reflexivity. Qed.

Lemma returns_bind {A B} (m : M A) (k : A -> M B) :
  returns m -> (forall a, returns (k a)) -> returns (bind m k).
Proof.
  intros Hm Hk c. unfold bind.
  destruct (Hm c) as (a & c' & ->). apply Hk.
Qed.

Lemma returns_try_except {A} (body : M A) (handler : exn -> M A) :
  (forall e, returns (handler e)) -> returns (try_except body handler).
Proof.
  intros Hh c. unfold try_except.
  destruct (body c) as [[a|e] c']; [exists a, c'; reflexivity|apply Hh].
Qed.

Lemma keeps_ret {A} (a : A) : keeps (ret a).
Proof. intros c H. exact H. Qed.

Lemma keeps_lift {A} (o : outcome A) : keeps (lift o).
Proof. intros c H. exact H. Qed.

Lemma keeps_throw {A} (e : exn) : keeps (@throw A e).
Proof. intros c H. exact H. Qed.

Lemma keeps_bind {A B} (m : M A) (k : A -> M B) :
  keeps m -> (forall a, keeps (k a)) -> keeps (bind m k).
Proof.
  intros Hm Hk c Hc. unfold bind. specialize (Hm c Hc).
  destruct (m c) as [[a|e] c']; simpl in *; [apply Hk; exact Hm|exact Hm].
Qed.

Lemma keeps_try_except {A} (body : M A) (handler : exn -> M A) :
  keeps body -> (forall e, keeps (handler e)) -> keeps (try_except body handler).
Proof.
  intros Hb Hh c Hc. unfold try_except. specialize (Hb c Hc).
  destruct (body c) as [[a|e] c']; simpl in *; [exact Hb|apply Hh; exact Hb].
Qed.

Lemma cache_ok_empty : cache_ok initial_cache.
Proof. intros k v H. unfold initial_cache in H. rewrite lookup_empty in H. discriminate. Qed.

Lemma cache_ok_insert (c : pe_cache) (k : string) (v : Q) :
  cache_ok c -> 5 <= v <= 40 -> cache_ok (<[k:=v]> c).
Proof.
  intros Hc Hv k' v' H. destruct (decide (k = k')) as [->|Hne].
  - rewrite lookup_insert_eq in H. injection H as <-. exact Hv.
  - rewrite lookup_insert_ne in H by exact Hne. eapply Hc; exact H.
Qed.

Lemma conservative_adjustment_bounds (a : Q) :
  5 <= conservative_adjustment a <= 40.
Proof. unfold conservative_adjustment. apply clamp_bounds. Qed.

(** ** The P/E estimate *)

Section EstimateFacts.

Variable yf_info : string -> outcome info.t.
Variable yf_download : string -> outcome (list Q).

Lemma fetch_pe_ratio_multi_source_returns (ticker : string) :
  returns (fetch_pe_ratio_multi_source yf_info ticker).
Proof.
  intros c. destruct (fetch_pe_ratio_multi_source_cases yf_info ticker c); eauto.
Qed.

Lemma fetch_pe_ratio_multi_source_keeps (ticker : string) :
  keeps (fetch_pe_ratio_multi_source yf_info ticker).
Proof.
  intros c Hc.
  destruct (fetch_pe_ratio_multi_source_cases yf_info ticker c); simpl; auto.
  apply cache_ok_insert; [exact Hc|apply conservative_adjustment_bounds].
Qed.

(** Whatever [fetch_pe_ratio_multi_source] returns is in [[5, 40]] when the
    cache is. *)
Lemma fetch_pe_ratio_multi_source_range (ticker : string) (c c' : pe_cache) (v : Q) :
  cache_ok c ->
  fetch_pe_ratio_multi_source yf_info ticker c = (Ok (Some v), c') ->
  5 <= v <= 40.
Proof.
  intros Hc H.
  destruct (fetch_pe_ratio_multi_source_cases yf_info ticker c) as [w Hw| |a];
    inversion H; subst.
  - eapply Hc; exact Hw.
  - apply conservative_adjustment_bounds.
Qed.

Lemma size_factor_range (market_cap : Q) : 0.85 <= size_factor market_cap <= 0.98.
Proof.
  unfold size_factor.
  destruct (Qltb 500000000000 market_cap); [split; discriminate|].
  destruct (Qltb 100000000000 market_cap); [split; discriminate|].
  destruct (Qltb market_cap 10000000000); split; discriminate.
Qed.

Lemma pe_estimates_of_length (multi_source_pe : option Q) (sector : string)
    (market_cap : option Q) :
  (1 <= length (pe_estimates_of multi_source_pe sector market_cap) <= 3)%nat.
Proof.
  unfold pe_estimates_of.
  destruct multi_source_pe as [v|]; [destruct (truthy v)|];
    (destruct market_cap as [mc|]; [destruct (truthy mc)|]);
    cbn [app length]; lia.
Qed.

Lemma pick_estimate_ok (pe_estimates : list Q) :
  pe_estimates <> [] ->
  exists m, pick_estimate pe_estimates = Ok m /\ In m pe_estimates.
Proof.
  intros Hne. unfold pick_estimate.
  assert (Hlen : (0 < length pe_estimates)%nat)
    by (destruct pe_estimates; [congruence|simpl; lia]).
  destruct (2 <=? Z.of_nat (length pe_estimates))%Z.
  - destruct (pyindex_ok (sorted pe_estimates)
                (Z.of_nat (length (sorted pe_estimates)) / 2)) as (m & Hm & Hin).
    { rewrite length_sorted.
      split; [apply Z.div_pos; lia|apply Z.div_lt_upper_bound; lia]. }
    exists m. split; [exact Hm|]. apply In_sorted. exact Hin.
  - apply pyindex_ok. lia.
Qed.

(** [get_conservative_pe_estimate] returns the clamp of one of its
    estimates and touches the cache only through the multi-source fetch. *)
Lemma get_conservative_pe_estimate_spec (ticker sector : string)
    (market_cap : option Q) (c : pe_cache) :
  exists r c' m,
    fetch_pe_ratio_multi_source yf_info ticker c = (Ok r, c') /\
    pick_estimate (pe_estimates_of r sector market_cap) = Ok m /\
    In m (pe_estimates_of r sector market_cap) /\
    get_conservative_pe_estimate yf_info ticker sector market_cap c
      = (Ok (Qmax min_pe_ratio (Qmin m max_pe_ratio)), c').
Proof.
  destruct (fetch_pe_ratio_multi_source_returns ticker c) as (r & c' & Hf).
  destruct (pick_estimate_ok (pe_estimates_of r sector market_cap)) as (m & Hm & Hin).
  { pose proof (pe_estimates_of_length r sector market_cap) as L.
    intros E. rewrite E in L. simpl in L. lia. }
  exists r, c', m. repeat split; try assumption.
  unfold get_conservative_pe_estimate, bind, lift, ret. rewrite Hf, Hm. reflexivity.
Qed.

Lemma get_conservative_pe_estimate_returns (ticker sector : string)
    (market_cap : option Q) :
  returns (get_conservative_pe_estimate yf_info ticker sector market_cap).
Proof.
  intros c.
  destruct (get_conservative_pe_estimate_spec ticker sector market_cap c)
    as (r & c' & m & _ & _ & _ & H).
  eauto.
Qed.

Lemma get_conservative_pe_estimate_keeps (ticker sector : string)
    (market_cap : option Q) :
  keeps (get_conservative_pe_estimate yf_info ticker sector market_cap).
Proof.
  intros c Hc.
  destruct (get_conservative_pe_estimate_spec ticker sector market_cap c)
    as (r & c' & m & Hf & _ & _ & H).
  rewrite H. simpl.
  pose proof (fetch_pe_ratio_multi_source_keeps ticker c Hc) as K.
  rewrite Hf in K. exact K.
Qed.

Lemma get_industry_pe_ratio_keeps (sector : string) (ticker : option string) :
  keeps (get_industry_pe_ratio yf_info sector ticker).
Proof.
  unfold get_industry_pe_ratio. destruct ticker as [t|]; [|apply keeps_ret].
  destruct (bool_decide (t = ""%string)); [apply keeps_ret|].
  apply keeps_bind; [apply fetch_pe_ratio_multi_source_keeps|].
  intros [v|]; [destruct (truthy v)|]; apply keeps_ret.
Qed.

Lemma fetch_stock_data_returns (ticker : string) :
  returns (fetch_stock_data yf_info yf_download ticker).
Proof.
  unfold fetch_stock_data. apply returns_try_except. intros _.
  unfold fetch_fallback. apply returns_bind.
  - apply get_conservative_pe_estimate_returns.
  - intros a. apply returns_ret.
Qed.

Lemma estimate_for_market_cap_keeps (ticker sector : string)
    (market_cap : option pyval) :
  keeps (estimate_for_market_cap yf_info ticker sector market_cap).
Proof.
  unfold estimate_for_market_cap.
  destruct market_cap as [[|x|s|s x]|]; cbn [pytruthy];
    try apply get_conservative_pe_estimate_keeps.
  - destruct (negb _); [|apply get_conservative_pe_estimate_keeps].
    apply keeps_bind; [apply fetch_pe_ratio_multi_source_keeps|].
    intros _. apply keeps_throw.
  - apply keeps_bind; [apply fetch_pe_ratio_multi_source_keeps|].
    intros _. apply keeps_throw.
Qed.

Lemma fetch_stock_data_keeps (ticker : string) :
  keeps (fetch_stock_data yf_info yf_download ticker).
Proof.
  unfold fetch_stock_data. apply keeps_try_except.
  - unfold fetch_live.
    apply keeps_bind; [apply keeps_lift|]. intros session_data.
    apply keeps_bind; [apply keeps_lift|]. intros i.
    apply keeps_bind; [apply keeps_lift|]. intros fcf.
    apply keeps_bind; [apply keeps_lift|]. intros eps.
    apply keeps_bind; [apply keeps_lift|]. intros book_value.
    apply keeps_bind; [apply keeps_lift|]. intros growth_rate.
    apply keeps_bind; [apply estimate_for_market_cap_keeps|]. intros pe.
    apply keeps_bind; [apply keeps_lift|]. intros current_price.
    apply keeps_ret.
  - intros _. unfold fetch_fallback.
    apply keeps_bind; [apply get_conservative_pe_estimate_keeps|]. intros pe.
    apply keeps_ret.
Qed.

End EstimateFacts.

(** ** The valuation calculator *)

Lemma pyrange_1_6 : pyrange 1 6 = [1; 2; 3; 4; 5]%Z.
Proof. reflexivity. Qed.

Lemma enumerate_5 (a b c d e : Q) :
  enumerate [a; b; c; d; e] = [(0, a); (1, b); (2, c); (3, d); (4, e)]%Z.
Proof. reflexivity. Qed.

Lemma discount_power_nonzero (k : Z) : ~ (1 + discount_rate) ^ k == 0.
Proof. apply Qpower_not_0. discriminate. Qed.

(** *** Powers inside the range of a [float] *)

Lemma Qpower_succ (x : Q) (n : nat) : x ^ Z.of_nat (S n) == x * x ^ Z.of_nat n.
Proof.
  rewrite Nat2Z.inj_succ. unfold Z.succ.
  rewrite Z.add_comm, Qpower_plus' by lia.
  rewrite Qpower_1_r. reflexivity.
Qed.

Lemma Qpower_base_le (x y : Q) (n : nat) :
  0 <= x -> x <= y -> 0 <= x ^ Z.of_nat n <= y ^ Z.of_nat n.
Proof.
  intros Hx Hxy. induction n as [|n [IH0 IH]].
  - cbn [Z.of_nat Qpower]. split; [discriminate|apply Qle_refl].
  - rewrite !Qpower_succ. split; [apply Qmult_le_0_compat; assumption|].
    apply Qle_trans with (x * y ^ Z.of_nat n).
    + rewrite !(Qmult_comm x). apply Qmult_le_compat_r; assumption.
    + apply Qmult_le_compat_r; [assumption|lra].
Qed.

Lemma in_float_range_bound (x b : Q) :
  0 <= x <= b -> in_float_range b = true -> in_float_range x = true.
Proof.
  unfold in_float_range. intros [H0 Hb] H. apply Qltb_lt in H. apply Qltb_lt.
  rewrite Qabs_pos by exact H0.
  apply Qle_lt_trans with b; [exact Hb|].
  eapply Qle_lt_trans; [apply Qle_Qabs|exact H].
Qed.

Lemma pypow_ok (x : Q) (n : Z) :
  (0 <= n)%Z -> in_float_range (x ^ n) = true -> pypow x n = Ok (x ^ n).
Proof.
  intros Hn H. unfold pypow.
  rewrite (proj2 (Z.ltb_ge n 0) Hn). cbn [andb]. rewrite H. reflexivity.
Qed.

Lemma pypow_overflow (x : Q) (n : Z) :
  (0 <= n)%Z -> in_float_range (x ^ n) = false -> pypow x n = Raise OverflowError.
Proof.
  intros Hn H. unfold pypow.
  rewrite (proj2 (Z.ltb_ge n 0) Hn). cbn [andb]. rewrite H. reflexivity.
Qed.

Lemma one_to_five (year : Z) :
  (1 <= year <= 5)%Z ->
  year = 1%Z \/ year = 2%Z \/ year = 3%Z \/ year = 4%Z \/ year = 5%Z.
Proof. lia. Qed.

(** The discount factors [1.12 ** k] are far inside the range. *)
Lemma pypow_discount (k : Z) :
  (1 <= k <= 5)%Z -> pypow (1 + discount_rate) k = Ok ((1 + discount_rate) ^ k).
Proof.
  intros Hk. apply pypow_ok; [lia|].
  destruct (one_to_five k Hk) as [->|[->|[->|[->| ->]]]]; vm_compute; reflexivity.
Qed.

(** A growth rate of a normalized record, in [[0, max_growth_rate]], keeps
    every power of the projection inside the range. *)
Lemma bounded_growth_in_range (growth_rate : Q) :
  0 <= growth_rate <= max_growth_rate -> growth_in_range growth_rate.
Proof.
  unfold max_growth_rate. intros [H0 H8] year Hy.
  assert (E : year = Z.of_nat (Z.to_nat year)) by lia.
  rewrite E.
  apply in_float_range_bound with ((1 + 0.08) ^ Z.of_nat (Z.to_nat year)).
  - apply Qpower_base_le; lra.
  - rewrite <- E.
    destruct (one_to_five year Hy) as [->|[->|[->|[->| ->]]]]; vm_compute; reflexivity.
Qed.

(** While the powers stay in range the [try] block of [calculate_dcf_value]
    does not reach its handler, and its value is the closed formula. *)
Lemma dcf_try_formula (sd : stock_data.t) :
  growth_in_range (stock_data.growth_rate sd) ->
  exists v, dcf_try sd = Ok v /\
    v == dcf_formula (stock_data.fcf_per_share sd) (stock_data.growth_rate sd)
           (stock_data.book_value sd) /\
    stock_data.book_value sd <= v.
Proof.
  intros Hg. unfold dcf_try. rewrite pyrange_1_6. cbn [map].
  rewrite (pypow_ok _ 1), (pypow_ok _ 2), (pypow_ok _ 3), (pypow_ok _ 4),
    (pypow_ok _ 5) by (try lia; apply Hg; lia).
  cbn [collect obind]. rewrite enumerate_5. cbn [map].
  rewrite !pypow_discount by lia.
  cbn [collect obind].
  rewrite !pydiv_ok by apply discount_power_nonzero.
  cbn [obind pylast List.last].
  rewrite pydiv_ok by discriminate.
  cbn [obind].
  rewrite pydiv_ok by apply discount_power_nonzero.
  cbn [obind].
  eexists. split; [reflexivity|]. split; [|apply Q.le_max_r].
  unfold dcf_formula. cbv zeta.
  set (f := if Qle_bool _ _ then _ else _).
  set (f' := if Qle_bool _ _ then _ else _).
  assert (Ef : f == f') by (subst f f'; destruct (Qle_bool _ _); reflexivity).
  clearbody f f'.
  apply Q.max_compat; [|reflexivity].
  unfold pysum, discount_rate, terminal_growth_rate. cbn [fold_left pv_of_years].
  change (Z.of_nat 1) with 1%Z; change (Z.of_nat 2) with 2%Z;
  change (Z.of_nat 3) with 3%Z; change (Z.of_nat 4) with 4%Z;
  change (Z.of_nat 5) with 5%Z.
  change (0 + 1)%Z with 1%Z; change (1 + 1)%Z with 2%Z;
  change (2 + 1)%Z with 3%Z; change (3 + 1)%Z with 4%Z;
  change (4 + 1)%Z with 5%Z.
  rewrite Ef. field.
Qed.

(** A value returned by the [try] block is floored at the book value. *)
Lemma dcf_try_floor (sd : stock_data.t) (v : Q) :
  dcf_try sd = Ok v -> stock_data.book_value sd <= v.
Proof.
  unfold dcf_try. cbv zeta.
  repeat match goal with
         | |- obind ?o _ = Ok v -> _ =>
             destruct o; cbn [obind]; [|discriminate]
         end.
  intros [= <-]. apply Q.le_max_r.
Qed.

(** When a power of the projection leaves the range, the [try] block raises
    and [calculate_dcf_value] returns the book value. *)
Lemma dcf_try_overflow (sd : stock_data.t) (year : Z) :
  (1 <= year <= 5)%Z ->
  in_float_range ((1 + stock_data.growth_rate sd) ^ year) = false ->
  exists e, dcf_try sd = Raise e.
Proof.
  intros Hy Hover. unfold dcf_try. cbv zeta. rewrite pyrange_1_6.
  set (g := stock_data.growth_rate sd) in *.
  set (f := if Qle_bool _ _ then _ else _).
  assert (R : exists e,
             collect (map (fun year0 => let! growth := pypow (1 + g) year0 in
                                        Ok (f * growth)) [1; 2; 3; 4; 5]%Z)
             = Raise e).
  { cbn [map collect].
    pose proof (pypow_overflow (1 + g) year ltac:(lia) Hover) as E.
    destruct (one_to_five year Hy) as [->|[->|[->|[->| ->]]]];
      rewrite E; cbn [obind];
      repeat match goal with
             | |- context [obind (pypow ?x ?n) _] =>
                 destruct (pypow x n); cbn [obind]
             end; eauto. }
  destruct R as [e ->]. exists e. reflexivity.
Qed.

Lemma book_value_le_dcf (sd : stock_data.t) :
  stock_data.book_value sd <= calculate_dcf_value sd.
Proof.
  unfold calculate_dcf_value.
  destruct (dcf_try sd) as [v|e] eqn:E; [|apply Qle_refl].
  apply (dcf_try_floor sd v E).
Qed.


(** C7. For a record whose growth rate is in its domain [[0, 0.08]], the DCF
    value is the sum over years 1..5 of
    [fcf * (1+growth_rate)^year / 1.12^year] plus the terminal value
    [fcf_year_5 * 1.08 / (0.12 - 0.08)] discounted by [1.12^5], floored at
    book value, with [fcf = 2.0] when [fcf_per_share <= 0]; the [try] block
    does not raise (the denominator [0.12 - 0.08] is positive, the powers
    stay in the range of a [float]).  A record with [fcf_per_share = -5]
    and [book_value = 50] is valued at 50 or more, whatever its other
    fields. *)
Theorem dcf_value_formula (sd : stock_data.t) :
  0 <= stock_data.growth_rate sd <= max_growth_rate ->
  dcf_try sd = Ok (calculate_dcf_value sd) /\
  calculate_dcf_value sd
    == dcf_formula (stock_data.fcf_per_share sd) (stock_data.growth_rate sd)
         (stock_data.book_value sd) /\
  stock_data.book_value sd <= calculate_dcf_value sd /\
  0 < discount_rate - terminal_growth_rate /\
  (forall ticker current_price eps sector growth_rate pe_ratio market_cap,
     let example := dcf_floor_record ticker current_price eps sector growth_rate
                      pe_ratio market_cap in
     50 <= calculate_dcf_value example /\
     (0 <= growth_rate <= max_growth_rate ->
      calculate_dcf_value example == dcf_formula (-5) growth_rate 50) /\
     dcf_formula (-5) growth_rate 50 == dcf_formula 2 growth_rate 50).
Proof.
  intros Hg. apply bounded_growth_in_range in Hg.
  split; [|split; [|split; [|split]]].
  - unfold calculate_dcf_value.
    destruct (dcf_try_formula sd Hg) as (v & -> & _). reflexivity.
  - unfold calculate_dcf_value.
    destruct (dcf_try_formula sd Hg) as (v & -> & H & _). exact H.
  - apply book_value_le_dcf.
  - reflexivity.
  - intros ticker current_price eps sector growth_rate pe_ratio market_cap example.
    split; [|split].
    + apply (book_value_le_dcf example).
    + intros Hg'. apply bounded_growth_in_range in Hg'.
      unfold calculate_dcf_value.
      destruct (dcf_try_formula example Hg') as (v & -> & H & _). exact H.
    + unfold dcf_formula.
      change (Qle_bool (-5) 0) with true. change (Qle_bool 2 0) with false.
      cbv iota zeta. reflexivity.
Qed.

Lemma dcf_value_formula_witness :
  calculate_dcf_value (dcf_floor_record "X" 10 1 "Energy" 0.05 None 1)
  == dcf_formula (-5) 0.05 50.
Proof.
  assert (Hg : 0 <= 0.05 <= max_growth_rate) by (split; discriminate).
  destruct (dcf_value_formula (dcf_floor_record "X" 10 1 "Energy" 0.05 None 1) Hg)
    as (_ & E & _).
  exact E.
Defined.

(** The weighted blend and its floor, on any three numbers. *)
Lemma weighted_blend_floor (dcf_value comps_value book_value : Q) :
  Qmax (dcf_value * dcf_weight + comps_value * comps_weight) book_value
    == Qmax book_value (0.6 * dcf_value + 0.4 * comps_value) /\
  book_value <= Qmax (dcf_value * dcf_weight + comps_value * comps_weight) book_value.
Proof.
  split; [|apply Q.le_max_r].
  rewrite Q.max_comm. apply Q.max_compat; [reflexivity|].
  unfold dcf_weight, comps_weight. ring.
Qed.


(** C1. The blended fair value is
    [max(book_value, 0.6 * dcf_value + 0.4 * comps_value)], hence never
    below book value. *)
Theorem fair_value_floor (sd : stock_data.t) :
  calculate_fair_value sd
    == Qmax (stock_data.book_value sd)
         (0.6 * calculate_dcf_value sd + 0.4 * calculate_comps_value sd) /\
  stock_data.book_value sd <= calculate_fair_value sd.
Proof.
  destruct (weighted_blend_floor (calculate_dcf_value sd) (calculate_comps_value sd)
              (stock_data.book_value sd)) as [Hblend Hfloor].
  split.
  - exact Hblend.
  - exact Hfloor.
Qed.


(** ** The batch orchestrator *)

Lemma determine_status_underpriced (fair_value current_price : Q) :
  determine_status fair_value current_price = Underpriced
  <-> current_price < fair_value.
Proof.
  unfold determine_status.
  destruct (Qltb current_price fair_value) eqn:E.
  - apply Qltb_lt in E. tauto.
  - apply Qltb_ge in E. split; [discriminate|lra].
Qed.

Lemma determine_status_overpriced (fair_value current_price : Q) :
  determine_status fair_value current_price = Overpriced
  <-> ~ current_price < fair_value.
Proof.
  unfold determine_status.
  destruct (Qltb current_price fair_value) eqn:E.
  - apply Qltb_lt in E. split; [discriminate|tauto].
  - apply Qltb_ge in E. split; [lra|reflexivity].
Qed.

(** [process_stock] ends in one of two ways. *)
Lemma process_stock_cases (self : valuator) (ticker : string) (index total : Z)
    (c : pe_cache) :
  (exists sd fair_value c',
     self_fetch_stock_data self ticker c = (Ok sd, c') /\
     self_calculate_fair_value self sd = Ok fair_value /\
     process_try self ticker c
       = (Ok {| row.Ticker := ticker;
                row.Fair_Value := fair_value;
                row.Current_Price := stock_data.current_price sd;
                row.Price_Difference := fair_value - stock_data.current_price sd;
                row.Book_Value := stock_data.book_value sd;
                row.Status := determine_status fair_value (stock_data.current_price sd);
                row.Price_Difference_Raw := fair_value - stock_data.current_price sd |},
          c') /\
     process_stock self ticker index total c = process_try self ticker c)
  \/
  (raises (process_try self ticker c).1 /\
   process_stock self ticker index total c
     = (Ok (error_row ticker), (process_try self ticker c).2)).
Proof.
  unfold process_stock, try_except, process_try, bind, lift, ret.
  destruct (self_fetch_stock_data self ticker c) as [[sd|e] c1] eqn:Hf.
  - destruct (self_calculate_fair_value self sd) as [fv|e] eqn:Hv.
    + left. exists sd, fv, c1. repeat split; solve [reflexivity | assumption].
    + right. split; [exact I|reflexivity].
  - right. split; [exact I|reflexivity].
Qed.

(** C2. [determine_status] answers [Underpriced] exactly when
    [current_price < fair_value] and [Overpriced] otherwise (so also when
    the two are equal), never [Error]; and every row of [process_stock]
    that is not the [Error] row carries the status of its own two numbers. *)
Theorem status_iff_price_below_fair_value :
  (forall fair_value current_price : Q,
     (determine_status fair_value current_price = Underpriced
      <-> current_price < fair_value) /\
     (determine_status fair_value current_price = Overpriced
      <-> ~ current_price < fair_value) /\
     determine_status fair_value current_price <> Error) /\
  (forall v : Q, determine_status v v = Overpriced) /\
  (forall (self : valuator) (ticker : string) (index total : Z) (c : pe_cache),
     exists r c',
       process_stock self ticker index total c = (Ok r, c') /\
       (r = error_row ticker \/
        (row.Status r <> Error /\
         (row.Status r = Underpriced <-> row.Current_Price r < row.Fair_Value r) /\
         (row.Status r = Overpriced <-> ~ row.Current_Price r < row.Fair_Value r)))).
Proof.
  split; [|split].
  - intros fv cp. split; [apply determine_status_underpriced|].
    split; [apply determine_status_overpriced|].
    unfold determine_status. destruct (Qltb cp fv); discriminate.
  - intros v. apply determine_status_overpriced. lra.
  - intros self ticker index total c.
    destruct (process_stock_cases self ticker index total c)
      as [(sd & fv & c' & _ & _ & Ht & Hp)|[_ Hp]].
    + rewrite Hp, Ht. eexists _, c'. split; [reflexivity|]. right.
      cbn [row.Status row.Current_Price row.Fair_Value].
      split; [unfold determine_status; destruct (Qltb _ _); discriminate|].
      split; [apply determine_status_underpriced|apply determine_status_overpriced].
    + rewrite Hp. eexists _, _. split; [reflexivity|]. left. reflexivity.
Qed.

(** ** The P/E aggregator on the examples of the specification *)

(** C3, as stated, fails: on [10, 11, 12, 100] the IQR filter does not
    remove [100]. *)
Lemma outlier_example_keeps_100 :
  ~ (exists kept, remove_outliers [10; 11; 12; 100] = Ok kept /\ ~ In 100 kept).
Proof.
  intros (kept & H & Hn). vm_compute in H. injection H as <-.
  apply Hn. simpl. tauto.
Qed.

(** C3, amended.  On [10, 11, 12, 100] the IQR filter is applied (four
    values), the quartiles are [Q1 = 10.25] and [Q3 = 78], so the fence is
    [[-91.375, 179.625]] and every value stays, [100] included; the blend is
    computed from all four values, [0.6 * 11.5 + 0.4 * 33.25 = 20.2], not
    from [10, 11, 12] alone, whose blend is [11]. *)
Theorem outlier_example_keeps_all :
  (3 <=? Z.of_nat (length [10; 11; 12; 100]))%Z = true /\
  (exists q1 q2 q3,
     statistics.quantiles [10; 11; 12; 100] 4 = Ok [q1; q2; q3] /\
     q1 == 10.25 /\ q3 == 78 /\
     q1 - 1.5 * (q3 - q1) == -91.375 /\ q3 + 1.5 * (q3 - q1) == 179.625) /\
  remove_outliers [10; 11; 12; 100] = Ok [10; 11; 12; 100] /\
  (exists md mn v,
     statistics.median [10; 11; 12; 100] = Ok md /\ md == 11.5 /\
     statistics.mean [10; 11; 12; 100] = Ok mn /\ mn == 33.25 /\
     aggregate_pe_ratios [10; 11; 12; 100] = Ok (Some v) /\ v == 20.2) /\
  (exists w, aggregate_pe_ratios [10; 11; 12] = Ok (Some w) /\ w == 11).
Proof.
  split; [reflexivity|]. split; [|split; [|split]].
  - eexists _, _, _. split; [vm_compute; reflexivity|].
    repeat split; vm_compute; reflexivity.
  - vm_compute. reflexivity.
  - eexists _, _, _. split; [vm_compute; reflexivity|].
    split; [vm_compute; reflexivity|].
    split; [vm_compute; reflexivity|].
    split; [vm_compute; reflexivity|].
    split; vm_compute; reflexivity.
  - eexists. split; vm_compute; reflexivity.
Qed.

(** C5. For a non-empty list the aggregator blends the ratios that remain
    after the outlier filter: one value is returned as it is, two values
    give their arithmetic mean, three or more give
    [0.6 * median + 0.4 * mean]; [20.0, 24.0] gives [22.0]. *)
Theorem central_tendency_blend (pe_ratios : list Q) :
  pe_ratios <> [] ->
  (exists kept v,
     remove_outliers pe_ratios = Ok kept /\
     blend kept = Ok v /\
     aggregate_pe_ratios pe_ratios = Ok (Some v) /\
     match kept with
     | [] => False
     | [x] => v = x
     | [x; y] => v == (x + y) / 2
     | _ =>
         exists median_pe mean_pe,
           statistics.median kept = Ok median_pe /\
           statistics.mean kept = Ok mean_pe /\
           mean_pe = pysum kept / inject_Z (Z.of_nat (length kept)) /\
           v = 0.6 * median_pe + 0.4 * mean_pe
     end) /\
  (exists v, aggregate_pe_ratios [20; 24] = Ok (Some v) /\ v == 22).
Proof.
  intros Hne. split; [|eexists; split; vm_compute; reflexivity].
  destruct (aggregate_pe_ratios_ok pe_ratios Hne) as (kept & v & Hk & Hkne & Hb & Ha & _).
  exists kept, v. repeat split; try assumption.
  destruct kept as [|x [|y [|z rest]]]; [congruence| | |].
  - unfold blend in Hb. cbv in Hb. injection Hb as <-. reflexivity.
  - unfold blend in Hb. cbn [length Z.of_nat Z.eqb Pos.of_succ_nat Pos.succ Pos.eqb] in Hb.
    unfold statistics.mean in Hb. injection Hb as <-.
    unfold pysum. cbn [fold_left length]. change (inject_Z (Z.of_nat 2)) with 2.
    field.
  - destruct (median_ok (x :: y :: z :: rest)) as (md & Hmd & _); [congruence|].
    exists md, (pysum (x :: y :: z :: rest)
                 / inject_Z (Z.of_nat (length (x :: y :: z :: rest)))).
    split; [exact Hmd|]. split; [reflexivity|]. split; [reflexivity|].
    unfold blend in Hb.
    replace (Z.of_nat (length (x :: y :: z :: rest)) =? 1)%Z with false in Hb
      by (symmetry; apply Z.eqb_neq; simpl length; lia).
    replace (Z.of_nat (length (x :: y :: z :: rest)) =? 2)%Z with false in Hb
      by (symmetry; apply Z.eqb_neq; simpl length; lia).
    rewrite Hmd in Hb. cbn [obind statistics.mean] in Hb. congruence.
Qed.

Lemma central_tendency_blend_witness :
  exists v, aggregate_pe_ratios [20; 24] = Ok (Some v) /\ v == 22.
Proof.
  apply (central_tendency_blend [20; 24]). discriminate.
Defined.

(** ** The conservative estimate when no source answers *)

Section ZeroSources.

Variable yf_info : string -> outcome info.t.

(** With the two estimates [industry_pe] and [industry_pe * size_factor],
    the entry at position [len // 2] of the sorted list is the larger one,
    which is the sector default itself. *)
Lemma pick_estimate_pair (sector : string) (market_cap : Q) :
  pick_estimate [industry_pe sector; industry_pe sector * size_factor market_cap]
    = Ok (industry_pe sector).
Proof.
  pose proof (industry_pe_range sector) as [Hlo _].
  pose proof (size_factor_range market_cap) as [_ Hhi].
  assert (Hlt : industry_pe sector * size_factor market_cap < industry_pe sector) by nra.
  unfold pick_estimate. cbn [length Z.of_nat Pos.of_succ_nat Pos.succ Z.leb Z.compare Pos.compare Pos.compare_cont].
  unfold sorted. cbn [fold_right insert_sorted].
  apply Qltb_lt in Hlt. rewrite Hlt. reflexivity.
Qed.

(** The exact zero-source result: the clamp of the sector default; the
    size adjustment does not change it, and the cache is not written. *)
Lemma zero_source_estimate_is_default (ticker sector : string) (market_cap : Q)
    (c : pe_cache) :
  c !! ticker = None ->
  query_sources (pe_sources yf_info) ticker = [] ->
  truthy market_cap = true ->
  get_conservative_pe_estimate yf_info ticker sector (Some market_cap) c
    = (Ok (Qmax min_pe_ratio (Qmin (industry_pe sector) max_pe_ratio)), c).
Proof.
  intros Hc Hq Hmc.
  unfold get_conservative_pe_estimate, bind, lift, ret.
  destruct (fetch_pe_ratio_multi_source_cases yf_info ticker c) as [v Hv| |a _ Hne];
    [congruence| |congruence].
  unfold pe_estimates_of. rewrite Hmc. cbn [app].
  rewrite pick_estimate_pair. reflexivity.
Qed.

(** C4.  What the code does when no P/E source answers (and nothing is
    cached) and the market cap is known.  The two estimates are the sector
    default and its size-adjusted value, and the entry at position
    [len // 2] of the sorted pair is the larger one: the estimate is the
    sector default itself, unadjusted (the clamp to [[5, 40]] leaves it as
    it is), strictly above the size-adjusted value of the claim.  No blend
    or discount is applied and the cache stays as it was. *)
Theorem zero_source_estimate (ticker sector : string) (market_cap : Q)
    (c : pe_cache) :
  c !! ticker = None ->
  query_sources (pe_sources yf_info) ticker = [] ->
  truthy market_cap = true ->
  pe_estimates_of None sector (Some market_cap)
    = [industry_pe sector; industry_pe sector * size_factor market_cap] /\
  pick_estimate (pe_estimates_of None sector (Some market_cap))
    = Ok (industry_pe sector) /\
  get_conservative_pe_estimate yf_info ticker sector (Some market_cap) c
    = (Ok (Qmax min_pe_ratio (Qmin (industry_pe sector) max_pe_ratio)), c) /\
  Qmax min_pe_ratio (Qmin (industry_pe sector) max_pe_ratio)
    == industry_pe sector /\
  Qmax min_pe_ratio
    (Qmin (industry_pe sector * size_factor market_cap) max_pe_ratio)
    < industry_pe sector /\
  fetch_pe_ratio_multi_source yf_info ticker c = (Ok None, c).
Proof.
  intros Hc Hq Hmc.
  assert (E : pe_estimates_of None sector (Some market_cap)
              = [industry_pe sector; industry_pe sector * size_factor market_cap]).
  { unfold pe_estimates_of. rewrite Hmc. reflexivity. }
  pose proof (industry_pe_range sector) as [Hlo Hhi].
  pose proof (size_factor_range market_cap) as [Hflo Hfhi].
  split; [exact E|]. split; [rewrite E; apply pick_estimate_pair|].
  split; [apply zero_source_estimate_is_default; assumption|].
  split; [apply clamp_id; lra|]. split.
  - rewrite clamp_id; [nra|]. split; nra.
  - destruct (fetch_pe_ratio_multi_source_cases yf_info ticker c) as [v Hv| |a _ Hne];
      [congruence|reflexivity|congruence].
Qed.

End ZeroSources.

Lemma zero_source_estimate_witness :
  get_conservative_pe_estimate provider_down "ZZZ" "Technology"
    (Some 150000000000) initial_cache
  = (Ok (Qmax min_pe_ratio (Qmin (industry_pe "Technology") max_pe_ratio)),
     initial_cache).
Proof.
  destruct (zero_source_estimate provider_down "ZZZ" "Technology" 150000000000
              initial_cache) as (_ & _ & H & _);
    [reflexivity|reflexivity|reflexivity|].
  exact H.
Defined.

(** C4 at the Technology sector and a market cap of $150B: the claim gives
    [22 * 0.98 = 21.56], the code returns [22]. *)
Lemma zero_source_estimate_not_size_adjusted :
  ~ (exists v,
       get_conservative_pe_estimate provider_down "ZZZ" "Technology"
         (Some 150000000000) initial_cache = (Ok v, initial_cache) /\
       v == Qmax min_pe_ratio
              (Qmin (industry_pe "Technology" * size_factor 150000000000)
                 max_pe_ratio)).
Proof.
  intros (v & H & E). vm_compute in H. injection H as <-.
  vm_compute in E. discriminate.
Qed.

(** ** The multi-source estimate *)

Section MultiSource.

Variable yf_info : string -> outcome info.t.

(** C6, amended.  When at least one source answers (and nothing is cached),
    the multi-source estimate is the aggregated blend times [0.85], clamped
    to [[5, 40]], and it is cached.  With the single source value [18.0] the
    blend is [18.0] and the estimate is [18.0 * 0.85]: that is [15.3] in
    exact arithmetic, and in the binary64 arithmetic of the program it is
    [15.299999999999999], the double just below the double of [15.3]. *)
Theorem multi_source_estimate (ticker : string) (c : pe_cache) :
  c !! ticker = None ->
  query_sources (pe_sources yf_info) ticker <> [] ->
  (exists aggregated_pe,
     aggregate_pe_ratios (query_sources (pe_sources yf_info) ticker)
       = Ok (Some aggregated_pe) /\
     fetch_pe_ratio_multi_source yf_info ticker c
       = (Ok (Some (Qmax 5 (Qmin (aggregated_pe * 0.85) 40))),
          <[ticker := Qmax 5 (Qmin (aggregated_pe * 0.85) 40)]> c) /\
     5 <= Qmax 5 (Qmin (aggregated_pe * 0.85) 40) <= 40) /\
  aggregate_pe_ratios [18] = Ok (Some 18) /\
  conservative_adjustment 18 == 15.3 /\
  Binary64.conservative_adjustment 18 = 15.299999999999999%float /\
  PrimFloat.ltb (Binary64.conservative_adjustment 18) 15.3 = true /\
  PrimFloat.next_up (Binary64.conservative_adjustment 18) = 15.3%float.
Proof.
  intros Hc Hq. split; [|repeat split; vm_compute; reflexivity].
  destruct (fetch_pe_ratio_multi_source_cases yf_info ticker c) as [v Hv|Hn Hq'|a _ _ Ha _];
    [congruence|congruence|].
  exists a. split; [exact Ha|]. split; [reflexivity|].
  apply (conservative_adjustment_bounds a).
Qed.

End MultiSource.

Lemma multi_source_estimate_witness :
  exists v c',
    fetch_pe_ratio_multi_source provider_pe_18 "ZZZ" initial_cache = (Ok (Some v), c') /\
    v == 15.3 /\ c' !! "ZZZ"%string = Some v.
Proof.
  destruct (multi_source_estimate provider_pe_18 "ZZZ" initial_cache)
    as [(a & Ha & Hf & _) _]; [reflexivity|vm_compute; discriminate|].
  vm_compute in Ha. injection Ha as <-.
  eexists _, _. split; [exact Hf|]. split; [vm_compute; reflexivity|].
  apply lookup_insert_eq.
Defined.

(** C6, as stated, fails on the last digit: the product [18.0 * 0.85]
    computed in binary64 is not the double [15.3]. *)
Lemma discount_of_18_is_not_15_3 :
  ~ (Binary64.conservative_adjustment 18 = 15.3%float).
Proof.
  intros H. apply (f_equal (fun x => PrimFloat.eqb x 15.3)) in H.
  vm_compute in H. discriminate.
Qed.

(** ** The cache invariant *)

Lemma process_stock_keeps (self : valuator) (ticker : string) (index total : Z) :
  (forall t, keeps (self_fetch_stock_data self t)) ->
  keeps (process_stock self ticker index total).
Proof.
  intros Hf. unfold process_stock. apply keeps_try_except.
  - unfold process_try. apply keeps_bind; [apply Hf|]. intros sd.
    apply keeps_bind; [apply keeps_lift|]. intros fv. apply keeps_ret.
  - intros _. apply keeps_ret.
Qed.

Lemma collect_rows_keeps (self : valuator) (jobs : list (Z * string)) (total : Z) :
  (forall t, keeps (self_fetch_stock_data self t)) ->
  keeps (collect_rows self jobs total).
Proof.
  intros Hf. induction jobs as [|[i ticker] rest IH]; cbn [collect_rows].
  - apply keeps_ret.
  - apply keeps_bind.
    + apply keeps_try_except; [apply process_stock_keeps; exact Hf|].
      intros _. apply keeps_ret.
    + intros r. apply keeps_bind; [exact IH|]. intros rs. apply keeps_ret.
Qed.

Lemma run_unread_keeps (self : valuator) (jobs : list (Z * string)) (total : Z) :
  (forall t, keeps (self_fetch_stock_data self t)) ->
  keeps (run_unread self jobs total).
Proof.
  intros Hf. induction jobs as [|[i ticker] rest IH]; cbn [run_unread].
  - apply keeps_ret.
  - intros c Hc. apply IH. apply process_stock_keeps; assumption.
Qed.

Lemma run_valuation_keeps (self : valuator) (tickers : list string)
    (pool : schedule) :
  (forall t, keeps (self_fetch_stock_data self t)) ->
  keeps (run_valuation self tickers pool).
Proof.
  intros Hf. unfold run_valuation.
  destruct (batch_timeout pool) as [k|]; [destruct (k <? _)%nat|];
    try (apply collect_rows_keeps; exact Hf).
  apply keeps_bind; [apply collect_rows_keeps; exact Hf|]. intros _.
  apply keeps_bind; [apply run_unread_keeps; exact Hf|]. intros _.
  apply keeps_throw.
Qed.

(** What a call of [fetch_pe_ratio_multi_source] leaves in the cache: the
    old entries, and at most one new one, a clamped estimate under the
    ticker of the call. *)
Lemma fetch_pe_ratio_multi_source_writes (yf_info : string -> outcome info.t)
    (ticker : string) (c : pe_cache) (k : string) (v : Q) :
  (fetch_pe_ratio_multi_source yf_info ticker c).2 !! k = Some v ->
  c !! k = Some v \/
  (k = ticker /\ c !! ticker = None /\
   exists aggregated_pe, v = conservative_adjustment aggregated_pe).
Proof.
  destruct (fetch_pe_ratio_multi_source_cases yf_info ticker c) as [w Hw| |a Hc _ _ _];
    cbn [snd]; auto.
  intros H. destruct (decide (ticker = k)) as [<-|Hne].
  - rewrite lookup_insert_eq in H. injection H as <-. right. eauto.
  - rewrite lookup_insert_ne in H by exact Hne. left. exact H.
Qed.

(** C10. Every value in the P/E cache lies in [[5, 40]]: the cache starts
    empty, [fetch_pe_ratio_multi_source] writes only clamped estimates, what
    it returns (a cache hit included) is in [[5, 40]], and every method that
    reaches the cache leaves it bounded, [run_valuation] under every
    schedule of the pool. *)
Theorem cache_values_bounded (yf_info : string -> outcome info.t)
    (yf_download : string -> outcome (list Q)) (ticker sector : string)
    (market_cap : option Q) (index total : Z) (tickers : list string)
    (c : pe_cache) :
  cache_ok c ->
  cache_ok initial_cache /\
  cache_ok (fetch_pe_ratio_multi_source yf_info ticker c).2 /\
  (forall k v,
     (fetch_pe_ratio_multi_source yf_info ticker c).2 !! k = Some v ->
     c !! k = Some v \/
     (k = ticker /\ c !! ticker = None /\
      exists aggregated_pe, v = conservative_adjustment aggregated_pe)) /\
  (forall v,
     c !! ticker = Some v ->
     fetch_pe_ratio_multi_source yf_info ticker c = (Ok (Some v), c) /\
     5 <= v <= 40) /\
  (forall v c',
     fetch_pe_ratio_multi_source yf_info ticker c = (Ok (Some v), c') ->
     5 <= v <= 40) /\
  cache_ok (get_conservative_pe_estimate yf_info ticker sector market_cap c).2 /\
  cache_ok (get_industry_pe_ratio yf_info sector (Some ticker) c).2 /\
  cache_ok (fetch_stock_data yf_info yf_download ticker c).2 /\
  cache_ok (process_stock (StockValuator yf_info yf_download) ticker index total c).2 /\
  (forall pool,
     cache_ok (run_valuation (StockValuator yf_info yf_download) tickers pool c).2).
Proof.
  intros Hc.
  split; [apply cache_ok_empty|].
  split; [apply fetch_pe_ratio_multi_source_keeps; exact Hc|].
  split; [apply fetch_pe_ratio_multi_source_writes|].
  split.
  { intros v Hv. split; [|eapply Hc; exact Hv].
    destruct (fetch_pe_ratio_multi_source_cases yf_info ticker c) as [w Hw| |a];
      congruence. }
  split.
  { intros v c' H. eapply fetch_pe_ratio_multi_source_range; eassumption. }
  split; [apply get_conservative_pe_estimate_keeps; exact Hc|].
  split; [apply get_industry_pe_ratio_keeps; exact Hc|].
  split; [apply fetch_stock_data_keeps; exact Hc|].
  split.
  - apply process_stock_keeps; [|exact Hc].
    intros t. apply fetch_stock_data_keeps.
  - intros pool. apply run_valuation_keeps; [|exact Hc].
    intros t. apply fetch_stock_data_keeps.
Qed.

Lemma cache_values_bounded_witness :
  cache_ok (run_valuation (StockValuator provider_pe_18 download_close_200)
              five_tickers last_first initial_cache).2.
Proof.
  destruct (cache_values_bounded provider_pe_18 download_close_200
              "AAPL" "Technology" None 0 5 five_tickers initial_cache
              cache_ok_empty) as (_ & _ & _ & _ & _ & _ & _ & _ & _ & H).
  exact (H last_first).
Defined.

(** ** The normalizer when the provider fails *)

(** C8. [fetch_stock_data] never raises; when the download or the [info]
    call fails it returns the synthetic record: price 150.0, FCF per share
    8.0, EPS 4.0, book value 25.0, sector Technology, growth 0.06, market
    cap 150e9. *)
Theorem normalizer_fallback (yf_info : string -> outcome info.t)
    (yf_download : string -> outcome (list Q)) (ticker : string) (c : pe_cache) :
  raises (yf_download ticker) \/ raises (yf_info ticker) ->
  (exists pe c',
     fetch_stock_data yf_info yf_download ticker c
       = (Ok {| stock_data.ticker := ticker;
                stock_data.current_price := 150.0;
                stock_data.fcf_per_share := 8.0;
                stock_data.eps := 4.0;
                stock_data.book_value := 25.0;
                stock_data.sector := "Technology";
                stock_data.growth_rate := 0.06;
                stock_data.pe_ratio := Some pe;
                stock_data.market_cap := 150000000000;
                stock_data.company_name := ticker |}, c') /\
     get_conservative_pe_estimate yf_info ticker "Technology"
       (Some 150000000000) c = (Ok pe, c')) /\
  (forall t c0, exists sd c1,
     fetch_stock_data yf_info yf_download t c0 = (Ok sd, c1)).
Proof.
  intros Hfail. split; [|intros t c0; apply fetch_stock_data_returns].
  destruct (get_conservative_pe_estimate_returns yf_info ticker "Technology"
              (Some 150000000000) c) as (pe & c' & Hpe).
  exists pe, c'. split; [|exact Hpe].
  assert (Hlive : exists e, fetch_live yf_info yf_download ticker c = (Raise e, c)).
  { unfold fetch_live, bind, lift.
    destruct (yf_download ticker) as [closes|e]; [|eauto].
    destruct (yf_info ticker) as [i|e]; [|eauto].
    destruct Hfail as [[]|[]]. }
  destruct Hlive as [e He].
  unfold fetch_stock_data, try_except. rewrite He.
  unfold fetch_fallback, bind, ret. rewrite Hpe. reflexivity.
Qed.

Lemma normalizer_fallback_witness :
  exists sd c',
    fetch_stock_data provider_down download_close_200 "ZZZ" initial_cache = (Ok sd, c') /\
    stock_data.current_price sd = 150.0 /\ stock_data.book_value sd = 25.0.
Proof.
  destruct (normalizer_fallback provider_down download_close_200 "ZZZ" initial_cache)
    as [(pe & c' & H & _) _]; [right; exact I|].
  eexists _, c'. split; [exact H|]. split; reflexivity.
Defined.

(** ** Fault isolation in the batch *)

Lemma process_stock_returns (self : valuator) (ticker : string) (index total : Z) :
  returns (process_stock self ticker index total).
Proof.
  unfold process_stock. apply returns_try_except. intros _. apply returns_ret.
Qed.

Lemma map_snd_combine {A B} (l1 : list A) (l2 : list B) :
  (length l2 <= length l1)%nat -> map snd (combine l1 l2) = l2.
Proof.
  revert l1. induction l2 as [|b l2 IH]; intros [|a l1] H; simpl in *;
    try reflexivity; try lia.
  f_equal. apply IH. lia.
Qed.

Lemma length_pyrange (n : nat) : length (pyrange 0 (Z.of_nat n)) = n.
Proof.
  unfold pyrange. rewrite length_map, length_seq. lia.
Qed.

Lemma enumerate_tickers_snd (tickers : list string) :
  map snd (enumerate_tickers tickers) = tickers.
Proof.
  unfold enumerate_tickers. apply map_snd_combine.
  rewrite length_pyrange. lia.
Qed.

(** Whatever the pool picks, [as_completed] yields every future once. *)
Lemma as_completed_perm {A} (pending : list A) (picks : list nat) :
  as_completed (length pending) pending picks ≡ₚ pending.
Proof.
  remember (length pending) as n eqn:Hn. revert pending picks Hn.
  induction n as [|n IH]; intros pending picks Hn.
  - destruct pending; [reflexivity|discriminate].
  - cbn [as_completed].
    destruct (lookup_lt_is_Some_2 pending (hd 0%nat picks mod length pending))
      as [x Hx].
    { apply Nat.mod_upper_bound. lia. }
    rewrite Hx. etransitivity; [|symmetry; apply (delete_Permutation _ _ _ Hx)].
    constructor. apply IH.
    rewrite length_delete by (rewrite Hx; eauto). lia.
Qed.

Lemma length_enumerate_tickers (tickers : list string) :
  length (enumerate_tickers tickers) = length tickers.
Proof.
  rewrite <- (enumerate_tickers_snd tickers) at 2. rewrite length_map. reflexivity.
Qed.

(** The tickers of the yielded futures are the submitted tickers, in some
    order. *)
Lemma completed_tickers (tickers : list string) (picks : list nat) :
  map snd (as_completed (length tickers) (enumerate_tickers tickers) picks)
  ≡ₚ tickers.
Proof.
  rewrite <- (enumerate_tickers_snd tickers) at 3.
  rewrite <- (length_enumerate_tickers tickers).
  apply Permutation_map, as_completed_perm.
Qed.


Section OneFailingPipeline.

Variable self : valuator.
Variable bad : string.

(** The pipeline of [bad] throws, from every cache ... *)
Hypothesis bad_throws : forall c, raises (process_try self bad c).1.

(** ... and no other pipeline does. *)
Hypothesis others_run :
  forall ticker, ticker <> bad -> forall c, ~ raises (process_try self ticker c).1.






End OneFailingPipeline.


(** * Further properties *)

(** ** The outlier filter *)

Lemma filter_sublist (f : Q -> bool) (l : list Q) : sublist (List.filter f l) l.
Proof.
  induction l as [|x l IH]; simpl; [constructor|].
  destruct (f x); [apply sublist_skip|apply sublist_cons]; exact IH.
Qed.

(** X2. The outlier filter returns a non-empty list for a non-empty input,
    keeps the surviving ratios in their order (a sublist of the input),
    leaves lists of fewer than three ratios untouched, and never raises. *)
Theorem remove_outliers_sublist (pe_ratios : list Q) :
  exists kept,
    remove_outliers pe_ratios = Ok kept /\
    sublist kept pe_ratios /\
    (pe_ratios <> [] -> kept <> []) /\
    ((length pe_ratios < 3)%nat -> kept = pe_ratios).
Proof.
  unfold remove_outliers.
  destruct (3 <=? Z.of_nat (length pe_ratios))%Z eqn:E.
  - apply Z.leb_le in E.
    destruct (quantiles_ok pe_ratios) as (q1 & q2 & q3 & Hq); [lia|].
    rewrite Hq. simpl.
    destruct (List.filter _ pe_ratios) as [|k ks] eqn:F.
    + exists pe_ratios. split; [reflexivity|]. split; [reflexivity|].
      split; [auto|lia].
    + exists (k :: ks). split; [reflexivity|].
      split; [rewrite <- F; apply filter_sublist|].
      split; [congruence|lia].
  - apply Z.leb_gt in E. exists pe_ratios.
    split; [reflexivity|]. split; [reflexivity|]. auto.
Qed.

(** ** The yfinance source *)

Lemma usable_pe_iff (v : Q) : usable_pe (Some v) = true <-> 0 < v < 150.
Proof.
  split.
  - intros H. apply usable_pe_pos in H as (w & [= <-] & Hw). exact Hw.
  - intros [H1 H2]. cbn [usable_pe].
    rewrite (truthy_pos v H1), (proj2 (Qltb_lt 0 v) H1), (proj2 (Qltb_lt v 150) H2).
    reflexivity.
Qed.

Lemma first_usable_pe_In (values : list (option Q)) (v : Q) :
  first_usable_pe values = Some v -> In (Some v) values.
Proof.
  induction values as [|pe rest IH]; cbn [first_usable_pe]; [discriminate|].
  destruct (usable_pe pe); [intros ->; left; reflexivity|].
  intros H. right. apply IH, H.
Qed.

(** X3. [fetch_pe_from_yfinance] never raises: a failing provider gives
    [None]; a value it returns is strictly between 0 and 150 and is one of
    the fields [trailingPE], [forwardPE], [priceToEarningsRatio]; a usable
    [trailingPE] wins over the other two, and when no field is usable the
    answer is [None]. *)
Theorem yfinance_pe_is_validated (yf_info : string -> outcome info.t)
    (ticker : string) :
  exists r,
    fetch_pe_from_yfinance yf_info ticker = Ok r /\
    (raises (yf_info ticker) -> r = None) /\
    (forall v, r = Some v ->
       0 < v < 150 /\
       exists i, yf_info ticker = Ok i /\
         (info.trailingPE i = Some v \/ info.forwardPE i = Some v \/
          info.priceToEarningsRatio i = Some v)) /\
    (forall i v, yf_info ticker = Ok i -> info.trailingPE i = Some v ->
       0 < v < 150 -> r = Some v) /\
    (forall i, yf_info ticker = Ok i ->
       usable_pe (info.trailingPE i) = false ->
       usable_pe (info.forwardPE i) = false ->
       usable_pe (info.priceToEarningsRatio i) = false -> r = None).
Proof.
  unfold fetch_pe_from_yfinance.
  destruct (yf_info ticker) as [i|e]; cbn [otry obind map].
  - eexists. split; [reflexivity|]. split; [intros []|]. split; [|split].
    + intros v Hv. split; [eapply first_usable_pe_pos; exact Hv|].
      exists i. split; [reflexivity|].
      apply first_usable_pe_In in Hv.
      destruct Hv as [Hv|[Hv|[Hv|[]]]]; auto.
    + intros i' v [= <-] Ht Hv. cbn [first_usable_pe]. rewrite Ht.
      rewrite (proj2 (usable_pe_iff v) Hv). reflexivity.
    + intros i' [= <-] H1 H2 H3. cbn [first_usable_pe].
      rewrite H1, H2, H3. reflexivity.
  - exists None. split; [reflexivity|]. split; [reflexivity|].
    split; [discriminate|]. split; discriminate.
Qed.

(** ** The cache: hits, misses and growth *)

Lemma fetch_pe_ratio_multi_source_hit (yf_info : string -> outcome info.t)
    (ticker : string) (c : pe_cache) (v : Q) :
  c !! ticker = Some v ->
  fetch_pe_ratio_multi_source yf_info ticker c = (Ok (Some v), c).
Proof.
  intros H. unfold fetch_pe_ratio_multi_source, bind, cache_get, ret.
  rewrite H. reflexivity.
Qed.

(** X4. An estimate, once returned, is served from the cache: a second
    call for the same ticker returns the same value and leaves the cache as
    it is, whatever the provider answers by then. *)
Theorem cached_estimate_is_reused (yf_info yf_info' : string -> outcome info.t)
    (ticker : string) (c c' : pe_cache) (v : Q) :
  fetch_pe_ratio_multi_source yf_info ticker c = (Ok (Some v), c') ->
  c' !! ticker = Some v /\
  fetch_pe_ratio_multi_source yf_info' ticker c' = (Ok (Some v), c').
Proof.
  intros H.
  assert (Hc : c' !! ticker = Some v).
  { destruct (fetch_pe_ratio_multi_source_cases yf_info ticker c) as [w Hw| |a];
      inversion H; subst; [exact Hw|apply lookup_insert_eq]. }
  split; [exact Hc|]. apply fetch_pe_ratio_multi_source_hit, Hc.
Qed.

Lemma cached_estimate_is_reused_witness :
  exists v c',
    fetch_pe_ratio_multi_source provider_pe_18 "ZZZ" initial_cache = (Ok (Some v), c') /\
    fetch_pe_ratio_multi_source provider_down "ZZZ" c' = (Ok (Some v), c').
Proof.
  destruct (fetch_pe_ratio_multi_source provider_pe_18 "ZZZ" initial_cache)
    as [[[v|]|e] c'] eqn:E; try (vm_compute in E; discriminate).
  exists v, c'. split; [reflexivity|].
  apply (cached_estimate_is_reused provider_pe_18 provider_down "ZZZ"
           initial_cache c' v E).
Defined.

(** X5. A lookup without result leaves no trace: when
    [fetch_pe_ratio_multi_source] returns [None] the ticker was not cached,
    no source had an answer, and the cache is unchanged, so the next call
    asks the sources again. *)
Theorem failed_lookup_is_not_cached (yf_info : string -> outcome info.t)
    (ticker : string) (c c' : pe_cache) :
  fetch_pe_ratio_multi_source yf_info ticker c = (Ok None, c') ->
  c' = c /\ c !! ticker = None /\
  query_sources (pe_sources yf_info) ticker = [] /\
  (forall yf_info', fetch_pe_ratio_multi_source yf_info' ticker c'
                    = fetch_pe_ratio_multi_source yf_info' ticker c).
Proof.
  intros H.
  destruct (fetch_pe_ratio_multi_source_cases yf_info ticker c) as [w Hw|Hc Hq|a];
    inversion H; subst.
  repeat split; auto.
Qed.

Lemma failed_lookup_is_not_cached_witness :
  initial_cache !! "ZZZ"%string = None /\
  query_sources (pe_sources provider_down) "ZZZ" = [].
Proof.
  destruct (failed_lookup_is_not_cached provider_down "ZZZ" initial_cache
              initial_cache) as (_ & Hc & Hq & _); [reflexivity|].
  split; [exact Hc|exact Hq].
Defined.

Lemma grows_ret {A} (a : A) : grows (ret a).
Proof. intros c. reflexivity. Qed.

Lemma grows_lift {A} (o : outcome A) : grows (lift o).
Proof. intros c. reflexivity. Qed.

Lemma grows_throw {A} (e : exn) : grows (@throw A e).
Proof. intros c. reflexivity. Qed.

Lemma grows_bind {A B} (m : M A) (k : A -> M B) :
  grows m -> (forall a, grows (k a)) -> grows (bind m k).
Proof.
  intros Hm Hk c. unfold bind. specialize (Hm c).
  destruct (m c) as [[a|e] c1]; cbn [snd] in *; [|exact Hm].
  etransitivity; [exact Hm|apply Hk].
Qed.

Lemma grows_try_except {A} (body : M A) (handler : exn -> M A) :
  grows body -> (forall e, grows (handler e)) -> grows (try_except body handler).
Proof.
  intros Hb Hh c. unfold try_except. specialize (Hb c).
  destruct (body c) as [[a|e] c1]; cbn [snd] in *; [exact Hb|].
  etransitivity; [exact Hb|apply Hh].
Qed.

Lemma fetch_pe_ratio_multi_source_grows (yf_info : string -> outcome info.t)
    (ticker : string) :
  grows (fetch_pe_ratio_multi_source yf_info ticker).
Proof.
  intros c.
  destruct (fetch_pe_ratio_multi_source_cases yf_info ticker c) as [w Hw| |a Hc];
    cbn [snd]; try reflexivity.
  apply insert_subseteq, Hc.
Qed.

Lemma get_conservative_pe_estimate_grows (yf_info : string -> outcome info.t)
    (ticker sector : string) (market_cap : option Q) :
  grows (get_conservative_pe_estimate yf_info ticker sector market_cap).
Proof.
  unfold get_conservative_pe_estimate.
  apply grows_bind; [apply fetch_pe_ratio_multi_source_grows|]. intros r.
  apply grows_bind; [apply grows_lift|]. intros m. apply grows_ret.
Qed.

Lemma estimate_for_market_cap_grows (yf_info : string -> outcome info.t)
    (ticker sector : string) (market_cap : option pyval) :
  grows (estimate_for_market_cap yf_info ticker sector market_cap).
Proof.
  unfold estimate_for_market_cap.
  destruct market_cap as [[|x|s|s x]|]; cbn [pytruthy];
    try apply get_conservative_pe_estimate_grows.
  - destruct (negb _); [|apply get_conservative_pe_estimate_grows].
    apply grows_bind; [apply fetch_pe_ratio_multi_source_grows|].
    intros _. apply grows_throw.
  - apply grows_bind; [apply fetch_pe_ratio_multi_source_grows|].
    intros _. apply grows_throw.
Qed.

Lemma fetch_stock_data_grows (yf_info : string -> outcome info.t)
    (yf_download : string -> outcome (list Q)) (ticker : string) :
  grows (fetch_stock_data yf_info yf_download ticker).
Proof.
  unfold fetch_stock_data. apply grows_try_except.
  - unfold fetch_live.
    apply grows_bind; [apply grows_lift|]. intros session_data.
    apply grows_bind; [apply grows_lift|]. intros i.
    apply grows_bind; [apply grows_lift|]. intros fcf.
    apply grows_bind; [apply grows_lift|]. intros eps.
    apply grows_bind; [apply grows_lift|]. intros book_value.
    apply grows_bind; [apply grows_lift|]. intros growth_rate.
    apply grows_bind; [apply estimate_for_market_cap_grows|]. intros pe.
    apply grows_bind; [apply grows_lift|]. intros current_price.
    apply grows_ret.
  - intros _. unfold fetch_fallback.
    apply grows_bind; [apply get_conservative_pe_estimate_grows|]. intros pe.
    apply grows_ret.
Qed.

Lemma process_stock_grows (self : valuator) (ticker : string) (index total : Z) :
  (forall t, grows (self_fetch_stock_data self t)) ->
  grows (process_stock self ticker index total).
Proof.
  intros Hf. unfold process_stock. apply grows_try_except.
  - unfold process_try. apply grows_bind; [apply Hf|]. intros sd.
    apply grows_bind; [apply grows_lift|]. intros fv. apply grows_ret.
  - intros _. apply grows_ret.
Qed.

Lemma collect_rows_grows (self : valuator) (jobs : list (Z * string)) (total : Z) :
  (forall t, grows (self_fetch_stock_data self t)) ->
  grows (collect_rows self jobs total).
Proof.
  intros Hf. induction jobs as [|[i ticker] rest IH]; cbn [collect_rows].
  - apply grows_ret.
  - apply grows_bind.
    + apply grows_try_except; [apply process_stock_grows; exact Hf|].
      intros _. apply grows_ret.
    + intros r. apply grows_bind; [exact IH|]. intros rs. apply grows_ret.
Qed.

Lemma run_unread_grows (self : valuator) (jobs : list (Z * string)) (total : Z) :
  (forall t, grows (self_fetch_stock_data self t)) ->
  grows (run_unread self jobs total).
Proof.
  intros Hf. induction jobs as [|[i ticker] rest IH]; cbn [run_unread].
  - apply grows_ret.
  - intros c. etransitivity; [|apply IH].
    apply process_stock_grows. exact Hf.
Qed.

Lemma run_valuation_grows (self : valuator) (tickers : list string)
    (pool : schedule) :
  (forall t, grows (self_fetch_stock_data self t)) ->
  grows (run_valuation self tickers pool).
Proof.
  intros Hf. unfold run_valuation.
  destruct (batch_timeout pool) as [k|]; [destruct (k <? _)%nat|];
    try (apply collect_rows_grows; exact Hf).
  apply grows_bind; [apply collect_rows_grows; exact Hf|]. intros _.
  apply grows_bind; [apply run_unread_grows; exact Hf|]. intros _.
  apply grows_throw.
Qed.

(** X6. The cache is never invalidated: every entry present before a call
    of [fetch_pe_ratio_multi_source], [get_conservative_pe_estimate],
    [get_industry_pe_ratio], [fetch_stock_data], [process_stock] or
    [run_valuation] (under every schedule of the pool) is present
    afterwards with the same value, and [fetch_pe_ratio_multi_source]
    touches no key but its own ticker. *)
Theorem cache_only_grows (yf_info : string -> outcome info.t)
    (yf_download : string -> outcome (list Q)) (ticker sector : string)
    (market_cap : option Q) (index total : Z) (tickers : list string)
    (c : pe_cache) :
  c ⊆ (fetch_pe_ratio_multi_source yf_info ticker c).2 /\
  (forall k, k <> ticker ->
     (fetch_pe_ratio_multi_source yf_info ticker c).2 !! k = c !! k) /\
  c ⊆ (get_conservative_pe_estimate yf_info ticker sector market_cap c).2 /\
  c ⊆ (get_industry_pe_ratio yf_info sector (Some ticker) c).2 /\
  c ⊆ (fetch_stock_data yf_info yf_download ticker c).2 /\
  c ⊆ (process_stock (StockValuator yf_info yf_download) ticker index total c).2 /\
  (forall pool,
     c ⊆ (run_valuation (StockValuator yf_info yf_download) tickers pool c).2).
Proof.
  split; [apply fetch_pe_ratio_multi_source_grows|].
  split.
  { intros k Hk.
    destruct (fetch_pe_ratio_multi_source_cases yf_info ticker c) as [w Hw| |a Hc];
      cbn [snd]; try reflexivity.
    apply lookup_insert_ne. congruence. }
  split; [apply get_conservative_pe_estimate_grows|].
  split.
  { unfold get_industry_pe_ratio.
    destruct (bool_decide (ticker = ""%string)); [reflexivity|].
    apply grows_bind; [apply fetch_pe_ratio_multi_source_grows|].
    intros [v|]; [destruct (truthy v)|]; apply grows_ret. }
  split; [apply fetch_stock_data_grows|].
  split.
  - apply process_stock_grows. intros t. apply fetch_stock_data_grows.
  - intros pool. apply run_valuation_grows. intros t. apply fetch_stock_data_grows.
Qed.

(** ** The conservative estimate, whatever the sources say *)

(** The entry at position [len // 2] of three sorted estimates, two of
    which are [b < a], lies between [b] and [a]. *)
Lemma pick_estimate_three (m a b : Q) :
  b < a ->
  exists s, pick_estimate [m; a; b] = Ok s /\ In s [m; a; b] /\ b <= s <= a.
Proof.
  intros Hba. unfold pick_estimate.
  cbn [length Z.of_nat Pos.of_succ_nat Pos.succ Z.leb Z.compare Pos.compare
       Pos.compare_cont].
  unfold sorted. cbn [fold_right insert_sorted].
  rewrite (proj2 (Qltb_lt b a) Hba). cbn [insert_sorted].
  destruct (Qltb b m) eqn:Ebm.
  - destruct (Qltb a m) eqn:Eam.
    + exists a. split; [reflexivity|]. split; [simpl; tauto|]. lra.
    + exists m. split; [reflexivity|]. split; [simpl; tauto|].
      apply Qltb_lt in Ebm. apply Qltb_ge in Eam. lra.
  - exists b. split; [reflexivity|]. split; [simpl; tauto|]. lra.
Qed.

(** With two estimates the entry at position [len // 2] is the larger. *)
Lemma pick_estimate_one (a : Q) : pick_estimate [a] = Ok a.
Proof. reflexivity. Qed.

Lemma pick_estimate_two (m a : Q) :
  exists s, pick_estimate [m; a] = Ok s /\ In s [m; a] /\ a <= s /\ m <= s.
Proof.
  unfold pick_estimate.
  cbn [length Z.of_nat Pos.of_succ_nat Pos.succ Z.leb Z.compare Pos.compare
       Pos.compare_cont].
  unfold sorted. cbn [fold_right insert_sorted].
  destruct (Qltb a m) eqn:E.
  - exists m. split; [reflexivity|]. split; [simpl; tauto|].
    apply Qltb_lt in E. lra.
  - exists a. split; [reflexivity|]. split; [simpl; tauto|].
    apply Qltb_ge in E. lra.
Qed.

Lemma size_adjusted_below_default (sector : string) (market_cap : Q) :
  8 <= industry_pe sector * size_factor market_cap /\
  industry_pe sector * size_factor market_cap < industry_pe sector.
Proof.
  pose proof (industry_pe_range sector) as [Hlo Hhi].
  pose proof (size_factor_range market_cap) as [Hfl Hfh].
  split; nra.
Qed.

(** X7. [get_conservative_pe_estimate] always returns, and what it returns
    is in [[5, 40]] for every ticker, sector, market cap and cache content,
    also when the cache holds a value outside that range. *)
Theorem conservative_estimate_always_bounded (yf_info : string -> outcome info.t)
    (ticker sector : string) (market_cap : option Q) (c : pe_cache) :
  exists v c',
    get_conservative_pe_estimate yf_info ticker sector market_cap c = (Ok v, c') /\
    5 <= v <= 40 /\
    c' = (fetch_pe_ratio_multi_source yf_info ticker c).2.
Proof.
  destruct (get_conservative_pe_estimate_spec yf_info ticker sector market_cap c)
    as (r & c' & m & Hf & _ & _ & H).
  eexists _, c'. split; [exact H|]. split; [apply clamp_bounds|].
  rewrite Hf. reflexivity.
Qed.

(** X8. When the market cap is known (non-zero) the estimate is the median
    of the estimates and lies between the size-adjusted sector default and
    the sector default, whatever the sources or the cache supply: a
    multi-source value outside that band does not move the estimate out of
    it. *)
Theorem estimate_in_sector_band (yf_info : string -> outcome info.t)
    (ticker sector : string) (market_cap : Q) (c : pe_cache) :
  truthy market_cap = true ->
  exists v c',
    get_conservative_pe_estimate yf_info ticker sector (Some market_cap) c
      = (Ok v, c') /\
    industry_pe sector * size_factor market_cap <= v <= industry_pe sector.
Proof.
  intros Hmc.
  destruct (get_conservative_pe_estimate_spec yf_info ticker sector
              (Some market_cap) c) as (r & c' & m & _ & Hm & _ & H).
  eexists _, c'. split; [exact H|].
  pose proof (size_adjusted_below_default sector market_cap) as [H8 Hlt].
  pose proof (industry_pe_range sector) as [_ H22].
  assert (Hband : industry_pe sector * size_factor market_cap <= m
                  <= industry_pe sector).
  { unfold pe_estimates_of in Hm. rewrite Hmc in Hm.
    destruct r as [w|]; [destruct (truthy w)|]; cbn [app] in Hm.
    - destruct (pick_estimate_three w _ _ Hlt) as (s & Hs & _ & Hb).
      rewrite Hs in Hm. injection Hm as <-. exact Hb.
    - rewrite pick_estimate_pair in Hm. injection Hm as <-. lra.
    - rewrite pick_estimate_pair in Hm. injection Hm as <-. lra. }
  rewrite clamp_id; [exact Hband|lra].
Qed.

Lemma estimate_in_sector_band_witness :
  exists v c',
    get_conservative_pe_estimate provider_pe_18 "NVDA" "Energy"
      (Some 700000000000) initial_cache = (Ok v, c') /\
    12 * 0.95 <= v <= 12.
Proof.
  destruct (estimate_in_sector_band provider_pe_18 "NVDA" "Energy" 700000000000
              initial_cache) as (v & c' & H & Hb); [reflexivity|].
  exists v, c'. split; [exact H|exact Hb].
Defined.

(** X9. When the market cap is unknown ([None] or zero) the estimate is
    never below the sector default: it is the sector default when there is
    no multi-source value, and the larger of the two otherwise. *)
Theorem estimate_without_market_cap (yf_info : string -> outcome info.t)
    (ticker sector : string) (market_cap : option Q) (c : pe_cache) :
  truthy_opt market_cap = false ->
  exists v c' r,
    get_conservative_pe_estimate yf_info ticker sector market_cap c = (Ok v, c') /\
    fetch_pe_ratio_multi_source yf_info ticker c = (Ok r, c') /\
    industry_pe sector <= v /\
    (truthy_opt r = false -> v == industry_pe sector) /\
    (forall w, r = Some w -> industry_pe sector <= w -> w <= 40 -> v == w).
Proof.
  intros Hmc.
  destruct (get_conservative_pe_estimate_spec yf_info ticker sector market_cap c)
    as (r & c' & m & Hf & Hm & _ & H).
  eexists _, c', r. split; [exact H|]. split; [exact Hf|].
  pose proof (industry_pe_range sector) as [H10 H22].
  assert (E : pe_estimates_of r sector market_cap
              = match r with
                | Some w => if truthy w then [w; industry_pe sector]
                            else [industry_pe sector]
                | None => [industry_pe sector]
                end).
  { unfold pe_estimates_of.
    destruct market_cap as [mc|]; cbn [truthy_opt] in Hmc; [rewrite Hmc|];
      destruct r as [w|]; try destruct (truthy w); reflexivity. }
  rewrite E in Hm. clear E.
  destruct r as [w|]; [destruct (truthy w) eqn:Ew|]; cbn [truthy_opt];
    rewrite ?Ew in *.
  - destruct (pick_estimate_two w (industry_pe sector)) as (s & Hs & Hin & Ha & Hw).
    rewrite Hs in Hm. injection Hm as <-.
    split; [|split; [discriminate|]].
    + unfold min_pe_ratio, max_pe_ratio.
      destruct (Q.min_spec s 40) as [[? Em]|[? Em]];
        destruct (Q.max_spec 5 (Qmin s 40)) as [[? Ex]|[? Ex]];
        rewrite Ex; rewrite ?Em in *; lra.
    + intros w' [= <-] Hge Hle.
      assert (Es : s == w).
      { destruct Hin as [<-|[<-|[]]]; [reflexivity|lra]. }
      rewrite Es. apply clamp_id. lra.
  - rewrite pick_estimate_one in Hm. injection Hm as <-.
    split; [|split].
    + rewrite clamp_id; lra.
    + intros _. apply clamp_id. lra.
    + intros w' [= <-] Hge _. exfalso.
      unfold truthy in Ew. apply negb_false_iff, Qeq_bool_iff in Ew. lra.
  - rewrite pick_estimate_one in Hm. injection Hm as <-.
    split; [|split; [|discriminate]].
    + rewrite clamp_id; lra.
    + intros _. apply clamp_id. lra.
Qed.

Lemma estimate_without_market_cap_witness :
  exists v c',
    get_conservative_pe_estimate provider_pe_18 "ZZZ" "Energy" None initial_cache
      = (Ok v, c') /\ 12 <= v.
Proof.
  destruct (estimate_without_market_cap provider_pe_18 "ZZZ" "Energy" None
              initial_cache) as (v & c' & r & H & _ & Hb & _); [reflexivity|].
  exists v, c'. split; [exact H|exact Hb].
Defined.

(** ** The normalizer *)




(** *** The blocks of the live path *)

Lemma float_limit_gt : 5 < float_limit.
Proof. vm_compute. reflexivity. Qed.

Lemma in_float_range_floor (lo p k : Q) :
  0 < lo <= 5 -> 0 <= k <= 1 -> in_float_range p = true ->
  in_float_range (Qmax lo (p * k)) = true.
Proof.
  unfold in_float_range. intros [Hlo Hlo5] [Hk0 Hk1] Hp.
  apply Qltb_lt in Hp. apply Qltb_lt.
  pose proof float_limit_gt as HL.
  destruct (Q.max_spec lo (p * k)) as [[Hlt E]|[Hle E]]; rewrite E.
  - assert (Hpos : 0 < p) by nra.
    rewrite Qabs_pos in Hp by lra. rewrite Qabs_pos by lra. nra.
  - rewrite Qabs_pos by lra. lra.
Qed.

Lemma price_floor_ok (lo p k : Q) :
  in_float_range p = true -> price_floor lo (PyNum p) k = Ok (Qmax lo (p * k)).
Proof. intros H. unfold price_floor, pymul. rewrite H. reflexivity. Qed.

Lemma price_floor_unusable (lo k : Q) (v : pyval) :
  ~ usable_price v ->
  price_floor lo v k = Raise TypeError \/ price_floor lo v k = Raise OverflowError.
Proof.
  intros H. destruct v as [|x|s|s x]; try (left; reflexivity).
  unfold price_floor, pymul. destruct (in_float_range x) eqn:E; [|right; reflexivity].
  exfalso. apply H. exists x. split; [reflexivity|exact E].
Qed.

(** A price that is not a number in range stops the EPS block, whose
    handler evaluates the same product. *)
Lemma live_eps_unusable (i : info.t) (v : pyval) :
  ~ usable_price v -> raises (live_eps i v).
Proof.
  intros H. unfold live_eps.
  destruct (price_floor_unusable 1.0 0.03 v H) as [E|E]; rewrite E;
    cbn [obind otry_type_value raises]; exact I.
Qed.


Lemma live_fcf_per_share_ok (i : info.t) (p : Q) :
  in_float_range p = true ->
  holds_float (info_fcf i) -> holds_float (info_shares i) ->
  live_fcf_per_share i (PyNum p) = Ok (fcf_reading i p).
Proof.
  intros Hp Hf Hs. unfold live_fcf_per_share, fcf_reading. cbv zeta.
  rewrite (price_floor_ok _ _ _ Hp).
  assert (Hdiv : forall f s,
             (if truthy f && truthy s && Qltb 0 s then pydiv f s
              else Ok (Qmax 2.0 (p * 0.05)))
             = Ok (if truthy f && truthy s && Qltb 0 s then f / s
                   else Qmax 2.0 (p * 0.05))).
  { intros f s. destruct (truthy f && truthy s && Qltb 0 s) eqn:C; [|reflexivity].
    apply andb_true_iff in C as [C _]. apply andb_true_iff in C as [_ C].
    apply truthy_true in C. apply pydiv_ok, C. }
  assert (Hzero : forall s,
             (if truthy 0 && truthy s && Qltb 0 s then pydiv 0 s
              else Ok (Qmax 2.0 (p * 0.05)))
             = Ok (Qmax 2.0 (p * 0.05))) by reflexivity.
  assert (Hzero' : forall f,
             (if truthy f && truthy 0 && Qltb 0 0 then pydiv f 0
              else Ok (Qmax 2.0 (p * 0.05)))
             = Ok (Qmax 2.0 (p * 0.05))).
  { intros f. change (truthy 0) with false. rewrite andb_false_r. reflexivity. }
  destruct (info_fcf i) as [|f|t|t f]; destruct (info_shares i) as [|s|u|u s];
    cbn [float_or pyfloat number_of obind];
    rewrite ?(Hf _ eq_refl), ?(Hs _ eq_refl); cbn [obind];
    rewrite ?Hzero, ?Hzero', ?Hdiv; reflexivity.
Qed.

Lemma eps_chain (i : info.t) (d : pyval) :
  default (default (default d (info.dilutedEPS i)) (info.forwardEps i))
    (info.trailingEps i)
  = default d (info_eps i).
Proof.
  unfold info_eps.
  destruct (info.trailingEps i), (info.forwardEps i), (info.dilutedEPS i); reflexivity.
Qed.

Lemma book_chain (i : info.t) (d : pyval) :
  default (default d (info.tangibleBookValue i)) (info.bookValue i)
  = default d (info_book i).
Proof.
  unfold info_book.
  destruct (info.bookValue i), (info.tangibleBookValue i); reflexivity.
Qed.

Lemma growth_chain (i : info.t) (d : pyval) :
  default (default d (info.revenueGrowth i)) (info.earningsGrowth i)
  = default d (info_growth i).
Proof.
  unfold info_growth.
  destruct (info.earningsGrowth i), (info.revenueGrowth i); reflexivity.
Qed.

Lemma live_eps_ok (i : info.t) (p : Q) :
  in_float_range p = true ->
  (forall v, info_eps i = Some v -> holds_float v) ->
  live_eps i (PyNum p) = Ok (eps_reading i p).
Proof.
  intros Hp He. unfold live_eps, eps_reading.
  rewrite (price_floor_ok _ _ _ Hp). cbn [obind]. rewrite eps_chain.
  destruct (info_eps i) as [[|x|t|t x]|]; cbn [default from_option id float_or pyfloat mbind option_bind number_of];
    try reflexivity.
  - rewrite (He _ eq_refl x eq_refl). reflexivity.
  - rewrite in_float_range_floor;
      [reflexivity|split; [reflexivity|discriminate]|split; discriminate|exact Hp].
Qed.

Lemma live_book_value_ok (i : info.t) (p : Q) :
  in_float_range p = true ->
  (forall v, info_book i = Some v -> holds_float v) ->
  live_book_value i (PyNum p) = Ok (book_reading i p).
Proof.
  intros Hp Hb. unfold live_book_value, book_reading.
  rewrite (price_floor_ok _ _ _ Hp). cbn [obind]. rewrite book_chain.
  destruct (info_book i) as [[|x|t|t x]|]; cbn [default from_option id float_or pyfloat mbind option_bind number_of];
    try reflexivity.
  - rewrite (Hb _ eq_refl x eq_refl). reflexivity.
  - rewrite in_float_range_floor;
      [reflexivity|split; [reflexivity|discriminate]|split; discriminate|exact Hp].
Qed.

Lemma live_growth_rate_ok (i : info.t) :
  (forall v, info_growth i = Some v -> holds_float v) ->
  live_growth_rate i = Ok (growth_reading i).
Proof.
  intros Hg. unfold live_growth_rate, growth_reading. cbv zeta. rewrite growth_chain.
  destruct (info_growth i) as [[|x|t|t x]|]; cbn [default from_option id float_or pyfloat mbind option_bind number_of];
    try reflexivity.
  rewrite (Hg _ eq_refl x eq_refl). reflexivity.
Qed.


Lemma estimate_for_market_cap_plain (yf_info : string -> outcome info.t)
    (ticker sector : string) (v : option pyval) :
  (forall w, v = Some w -> (exists x, w = PyNum x) \/ pytruthy w = false) ->
  estimate_for_market_cap yf_info ticker sector v
  = get_conservative_pe_estimate yf_info ticker sector (market_cap_arg v).
Proof.
  intros H. unfold estimate_for_market_cap, market_cap_arg.
  destruct v as [[|x|s|s x]|]; try reflexivity.
  - destruct (H _ eq_refl) as [[x [=]]|E]. rewrite E. reflexivity.
  - destruct (H _ eq_refl) as [[y [=]]|E]. discriminate E.
Qed.


(** *** How [fetch_stock_data] ends *)

(** The live path once both provider calls have returned. *)
Lemma fetch_live_blocks (yf_info : string -> outcome info.t)
    (yf_download : string -> outcome (list Q)) (ticker : string) (c : pe_cache)
    (closes : list Q) (i : info.t) :
  yf_download ticker = Ok closes -> yf_info ticker = Ok i ->
  fetch_live yf_info yf_download ticker c
  = match live_fcf_per_share i (live_price closes i) with
    | Raise e => (Raise e, c)
    | Ok fcf =>
    match live_eps i (live_price closes i) with
    | Raise e => (Raise e, c)
    | Ok eps =>
    match live_book_value i (live_price closes i) with
    | Raise e => (Raise e, c)
    | Ok book =>
    match live_growth_rate i with
    | Raise e => (Raise e, c)
    | Ok g =>
    match estimate_for_market_cap yf_info ticker
            (default "Default"%string (info.sector i)) (info.marketCap i) c with
    | (Raise e, c') => (Raise e, c')
    | (Ok pe, c') =>
    match pyfloat (live_price closes i) with
    | Raise e => (Raise e, c')
    | Ok p => (Ok (live_record ticker i p fcf eps book g pe), c')
    end end end end end end.
Proof.
  intros Hd Hi. unfold fetch_live, bind, lift, ret. rewrite Hd, Hi.
  destruct (live_fcf_per_share _ _); [|reflexivity].
  destruct (live_eps _ _); [|reflexivity].
  destruct (live_book_value _ _); [|reflexivity].
  destruct (live_growth_rate _); [|reflexivity].
  destruct (estimate_for_market_cap _ _ _ _ _) as [[pe|e] c']; [|reflexivity].
  destruct (pyfloat _); reflexivity.
Qed.


(** The two ways in which [fetch_stock_data] ends: with the record of the
    live path, or with the record of the handler. *)
Lemma fetch_stock_data_cases (yf_info : string -> outcome info.t)
    (yf_download : string -> outcome (list Q)) (ticker : string) (c : pe_cache) :
  (exists sd c',
     fetch_live yf_info yf_download ticker c = (Ok sd, c') /\
     fetch_stock_data yf_info yf_download ticker c = (Ok sd, c')) \/
  (exists e c1 pe c',
     fetch_live yf_info yf_download ticker c = (Raise e, c1) /\
     get_conservative_pe_estimate yf_info ticker "Technology"
       (Some 150000000000) c1 = (Ok pe, c') /\
     fetch_stock_data yf_info yf_download ticker c
       = (Ok {| stock_data.ticker := ticker;
                stock_data.current_price := 150.0;
                stock_data.fcf_per_share := 8.0;
                stock_data.eps := 4.0;
                stock_data.book_value := 25.0;
                stock_data.sector := "Technology";
                stock_data.growth_rate := 0.06;
                stock_data.pe_ratio := Some pe;
                stock_data.market_cap := 150000000000;
                stock_data.company_name := ticker |}, c')).
Proof.
  unfold fetch_stock_data, try_except.
  destruct (fetch_live yf_info yf_download ticker c) as [[sd|e] c1] eqn:E.
  - left. eauto.
  - right.
    destruct (get_conservative_pe_estimate_returns yf_info ticker "Technology"
                (Some 150000000000) c1) as (pe & c' & Hpe).
    exists e, c1, pe, c'. split; [reflexivity|]. split; [exact Hpe|].
    unfold fetch_fallback, bind, ret. rewrite Hpe. reflexivity.
Qed.

(** When the live path raises, the record is the synthetic one. *)
Lemma fetch_stock_data_synthetic (yf_info : string -> outcome info.t)
    (yf_download : string -> outcome (list Q)) (ticker : string)
    (c c1 c' : pe_cache) (e : exn) (sd : stock_data.t) :
  fetch_live yf_info yf_download ticker c = (Raise e, c1) ->
  fetch_stock_data yf_info yf_download ticker c = (Ok sd, c') ->
  synthetic sd.
Proof.
  intros Hl H.
  destruct (fetch_stock_data_cases yf_info yf_download ticker c)
    as [(sd' & c2 & Hl' & _)|(e' & c2 & pe & c3 & _ & _ & Hf)]; [congruence|].
  rewrite Hf in H. injection H as <- <-. repeat split.
Qed.


(** The record of the live path on a dictionary on which no block raises
    past its handler. *)
Lemma fetch_stock_data_live (yf_info : string -> outcome info.t)
    (yf_download : string -> outcome (list Q)) (ticker : string) (c : pe_cache)
    (closes : list Q) (i : info.t) (p : Q) :
  yf_download ticker = Ok closes -> yf_info ticker = Ok i -> sound_info i ->
  live_price closes i = PyNum p -> in_float_range p = true ->
  exists pe c',
    get_conservative_pe_estimate yf_info ticker
      (default "Default"%string (info.sector i))
      (market_cap_arg (info.marketCap i)) c = (Ok pe, c') /\
    fetch_stock_data yf_info yf_download ticker c
    = (Ok (live_record ticker i p (fcf_reading i p) (eps_reading i p)
             (book_reading i p) (growth_reading i) pe), c').
Proof.
  intros Hd Hi (Hf & Hs & He & Hb & Hg & Hm) Hprice Hp.
  destruct (get_conservative_pe_estimate_returns yf_info ticker
              (default "Default"%string (info.sector i))
              (market_cap_arg (info.marketCap i)) c) as (pe & c' & Hpe).
  exists pe, c'. split; [exact Hpe|].
  unfold fetch_stock_data, try_except.
  rewrite (fetch_live_blocks _ _ _ _ closes i Hd Hi), Hprice.
  rewrite (live_fcf_per_share_ok i p Hp Hf Hs), (live_eps_ok i p Hp He),
    (live_book_value_ok i p Hp Hb), (live_growth_rate_ok i Hg).
  rewrite (estimate_for_market_cap_plain _ _ _ _ Hm), Hpe.
  cbn [pyfloat]. rewrite Hp. reflexivity.
Qed.


(** X11. The price of the record.  The last close of the download is taken
    when it is not zero; otherwise the value of the first key present among
    [currentPrice], [regularMarketPrice] and [previousClose], else 100.  A
    key that is present and holds [None] is taken like any other: with no
    close, a [currentPrice] of [None] gives the synthetic record, whatever
    [regularMarketPrice] holds.  When the value taken is a number that a
    [float] can hold (and no other value read raises past its handler), the
    record is the live one, with that price. *)
Theorem price_fallback_chain (yf_info : string -> outcome info.t)
    (yf_download : string -> outcome (list Q)) (ticker : string) (c : pe_cache)
    (closes : list Q) (i : info.t) :
  yf_download ticker = Ok closes -> yf_info ticker = Ok i ->
  (forall p, last_close closes = Some p -> ~ p == 0 ->
     live_price closes i = PyNum p) /\
  ((last_close closes = None \/
    exists p, last_close closes = Some p /\ p == 0) ->
   live_price closes i
   = match info.currentPrice i, info.regularMarketPrice i, info.previousClose i with
     | Some v, _, _ => v
     | None, Some v, _ => v
     | None, None, Some v => v
     | None, None, None => PyNum 100
     end) /\
  (forall p, live_price closes i = PyNum p -> in_float_range p = true ->
     sound_info i ->
     exists sd c',
       fetch_stock_data yf_info yf_download ticker c = (Ok sd, c') /\
       stock_data.current_price sd = p /\
       stock_data.sector sd = default "Default"%string (info.sector i) /\
       stock_data.market_cap sd = default (PyNum 1000000000) (info.marketCap i) /\
       stock_data.company_name sd = default ticker (info.longName i)) /\
  (last_close closes = None -> info.currentPrice i = Some PyNone ->
   exists sd c',
     fetch_stock_data yf_info yf_download ticker c = (Ok sd, c') /\
     synthetic sd).
Proof.
  intros Hd Hi.
  assert (Hinfo : (last_close closes = None \/
                   exists p, last_close closes = Some p /\ p == 0) ->
                  live_price closes i = info_price i).
  { unfold live_price. intros [->|(p & -> & Hp)]; [reflexivity|].
    apply Qeq_bool_iff in Hp. rewrite Hp. reflexivity. }
  split; [|split; [|split]].
  - intros p E Hp. unfold live_price. rewrite E.
    destruct (Qeq_bool p 0) eqn:Ez; [|reflexivity].
    apply Qeq_bool_iff in Ez. contradiction.
  - intros Hnone. rewrite (Hinfo Hnone). unfold info_price.
    destruct (info.currentPrice i), (info.regularMarketPrice i),
      (info.previousClose i); reflexivity.
  - intros p Hprice Hp Hsound.
    destruct (fetch_stock_data_live yf_info yf_download ticker c closes i p
                Hd Hi Hsound Hprice Hp) as (pe & c' & _ & Hf).
    eexists _, c'. split; [exact Hf|]. repeat split.
  - intros Hnone Hcp.
    destruct (fetch_stock_data_returns yf_info yf_download ticker c) as (sd & c' & H).
    exists sd, c'. split; [exact H|].
    assert (Hbad : ~ usable_price (live_price closes i)).
    { rewrite (Hinfo (or_introl Hnone)). unfold info_price. rewrite Hcp.
      intros (p & E & _). discriminate E. }
    pose proof (live_eps_unusable i _ Hbad) as Heps.
    assert (Hraise : exists e c1,
               fetch_live yf_info yf_download ticker c = (Raise e, c1)).
    { rewrite (fetch_live_blocks _ _ _ _ closes i Hd Hi).
      destruct (live_fcf_per_share _ _); [|eauto].
      destruct (live_eps _ _); [destruct Heps|eauto]. }
    destruct Hraise as (e & c1 & Hl).
    exact (fetch_stock_data_synthetic _ _ _ _ _ _ _ _ Hl H).
Qed.

Ltac sound_field :=
  unfold holds_float; intros;
  repeat match goal with
         | E : _ = Some _ |- _ =>
             vm_compute in E; first [discriminate E | injection E as <-]
         | E : _ = PyNum _ |- _ =>
             vm_compute in E; first [discriminate E | injection E as <-]
         end;
  first [vm_compute; reflexivity | left; eexists; reflexivity | right; reflexivity].

Lemma info_full_sound : sound_info info_full.
Proof.
  unfold sound_info. repeat apply conj; sound_field.
Qed.

Lemma price_fallback_chain_witness :
  (exists sd c',
     fetch_stock_data provider_full download_empty "XOM" initial_cache = (Ok sd, c') /\
     stock_data.current_price sd = 120) /\
  (exists sd c',
     fetch_stock_data provider_none_price download_empty "XOM" initial_cache
       = (Ok sd, c') /\
     stock_data.current_price sd = 150.0).
Proof.
  split.
  - destruct (price_fallback_chain provider_full download_empty "XOM" initial_cache
                [] info_full eq_refl eq_refl) as (_ & _ & Hlive & _).
    destruct (Hlive 120 eq_refl eq_refl info_full_sound) as (sd & c' & H & Hp & _).
    exists sd, c'. split; [exact H|exact Hp].
  - destruct (price_fallback_chain provider_none_price download_empty "XOM"
                initial_cache [] info_none_price eq_refl eq_refl)
      as (_ & _ & _ & Hnone).
    destruct (Hnone eq_refl eq_refl) as (sd & c' & H & Hp & _).
    exists sd, c'. split; [exact H|exact Hp].
Defined.

(** X12. The fallbacks of the live record, for a price [p] that a [float]
    can hold.  The FCF per share is free cash flow over shares when both
    read as numbers, the cash flow is not zero and the share count is
    positive; in every other case, also when a key holds [None] or a text,
    it is [max(2.0, 0.05 * p)].  A [freeCashflow] key that holds [None] is
    not passed over for [operatingCashflow].  Without a book value that
    reads as a number the book value is [max(5.0, 0.2 * p)], and without
    such an EPS the EPS is [max(1.0, 0.03 * p)]. *)
Theorem fallback_values_have_floors (yf_info : string -> outcome info.t)
    (yf_download : string -> outcome (list Q)) (ticker : string) (c : pe_cache)
    (closes : list Q) (i : info.t) (p : Q) :
  yf_download ticker = Ok closes -> yf_info ticker = Ok i -> sound_info i ->
  live_price closes i = PyNum p -> in_float_range p = true ->
  exists sd c',
    fetch_stock_data yf_info yf_download ticker c = (Ok sd, c') /\
    stock_data.current_price sd = p /\
    (forall f s, number_of (info_fcf i) = Some f ->
       number_of (info_shares i) = Some s -> ~ f == 0 -> 0 < s ->
       stock_data.fcf_per_share sd = f / s) /\
    ((forall f, number_of (info_fcf i) = Some f -> f == 0) \/
     (forall s, number_of (info_shares i) = Some s -> s <= 0) ->
     stock_data.fcf_per_share sd = Qmax 2.0 (p * 0.05) /\
     2 <= stock_data.fcf_per_share sd) /\
    (info.freeCashflow i = Some PyNone -> number_of (info_fcf i) = None) /\
    (info_book i ≫= number_of = None ->
     stock_data.book_value sd = Qmax 5.0 (p * 0.2) /\
     5 <= stock_data.book_value sd) /\
    (info_eps i ≫= number_of = None ->
     stock_data.eps sd = Qmax 1.0 (p * 0.03) /\
     1 <= stock_data.eps sd).
Proof.
  intros Hd Hi Hsound Hprice Hp.
  destruct (fetch_stock_data_live yf_info yf_download ticker c closes i p
              Hd Hi Hsound Hprice Hp) as (pe & c' & _ & Hf).
  eexists _, c'. split; [exact Hf|].
  cbn [live_record stock_data.current_price stock_data.fcf_per_share
       stock_data.book_value stock_data.eps].
  split; [reflexivity|]. split; [|split; [|split; [|split]]].
  - intros f s Ef Es Hf0 Hs0. unfold fcf_reading. rewrite Ef, Es.
    rewrite (proj2 (truthy_true f) Hf0), (truthy_pos s Hs0),
      (proj2 (Qltb_lt 0 s) Hs0). reflexivity.
  - intros Hbad.
    assert (E : fcf_reading i p = Qmax 2.0 (p * 0.05)).
    { unfold fcf_reading.
      destruct (number_of (info_fcf i)) as [f|]; [|reflexivity].
      destruct (number_of (info_shares i)) as [s|]; [|reflexivity].
      destruct Hbad as [Hz|Hs].
      - specialize (Hz f eq_refl).
        assert (T : truthy f = false).
        { destruct (truthy f) eqn:T; [|reflexivity].
          apply truthy_true in T. contradiction. }
        rewrite T. reflexivity.
      - specialize (Hs s eq_refl).
        rewrite (proj2 (Qltb_ge 0 s) Hs), andb_false_r. reflexivity. }
    rewrite E. split; [reflexivity|].
    pose proof (Q.le_max_l 2.0 (p * 0.05)). lra.
  - intros E. unfold info_fcf. rewrite E. reflexivity.
  - intros E. unfold book_reading. rewrite E. split; [reflexivity|].
    pose proof (Q.le_max_l 5.0 (p * 0.2)). lra.
  - intros E. unfold eps_reading. rewrite E.
    assert (Hge : 1 <= Qmax 1.0 (p * 0.03)).
    { pose proof (Q.le_max_l 1.0 (p * 0.03)). lra. }
    assert (Hpos : 0 < Qmax 1.0 (p * 0.03)) by lra.
    rewrite (truthy_pos _ Hpos). split; [reflexivity|exact Hge].
Qed.

Lemma info_none_fcf_sound : sound_info info_none_fcf.
Proof.
  unfold sound_info. repeat apply conj; sound_field.
Qed.

Lemma fallback_values_have_floors_witness :
  exists sd c',
    fetch_stock_data provider_none_fcf download_close_200 "ZZZ" initial_cache
      = (Ok sd, c') /\
    stock_data.current_price sd = 200 /\
    stock_data.fcf_per_share sd == 10.
Proof.
  destruct (fallback_values_have_floors provider_none_fcf download_close_200 "ZZZ"
              initial_cache [200] info_none_fcf 200 eq_refl eq_refl
              info_none_fcf_sound eq_refl eq_refl)
    as (sd & c' & H & Hp & _ & Hfcf & _).
  exists sd, c'. split; [exact H|]. split; [exact Hp|].
  destruct Hfcf as [E _]; [left; intros f Ef; discriminate Ef|].
  rewrite E. vm_compute. reflexivity.
Defined.

(** ** The valuation of a normalized record *)






(** A power that is twice the largest [float] or more is out of range. *)
Lemma beyond_float_range (x : Q) :
  2 * float_limit <= Qabs x -> in_float_range x = false.
Proof.
  intros H. unfold in_float_range, Qltb.
  destruct (Qle_bool float_limit (Qabs x)) eqn:E; [reflexivity|].
  exfalso. assert (Hle : ~ float_limit <= Qabs x).
  { intros Hle. apply Qle_bool_iff in Hle. congruence. }
  apply Hle. pose proof float_limit_gt. lra.
Qed.

(** X20. The handler of [calculate_dcf_value] is reached: when a power
    [(1 + growth_rate) ** year] of the projection, [year] in 1..5, is twice
    the largest [float] or more, the [**] raises, the [try] block is left
    and the method returns the book value, whatever the cash flow. *)
Theorem dcf_overflow_gives_book_value (sd : stock_data.t) (year : Z) :
  (1 <= year <= 5)%Z ->
  2 * float_limit <= Qabs ((1 + stock_data.growth_rate sd) ^ year) ->
  (exists e, dcf_try sd = Raise e) /\
  calculate_dcf_value sd = stock_data.book_value sd.
Proof.
  intros Hy Hover. apply beyond_float_range in Hover.
  destruct (dcf_try_overflow sd year Hy Hover) as [e He].
  split; [exists e; exact He|].
  unfold calculate_dcf_value. rewrite He. reflexivity.
Qed.

Lemma dcf_overflow_gives_book_value_witness :
  calculate_dcf_value
    (dcf_floor_record "X" 10 1 "Energy" (inject_Z (10 ^ 200)) None 1) = 50.
Proof.
  refine (proj2 (dcf_overflow_gives_book_value
                   (dcf_floor_record "X" 10 1 "Energy" (inject_Z (10 ^ 200)) None 1)
                   2 _ _)).
  - lia.
  - vm_compute. discriminate.
Defined.

(** ** Rows and batches *)



Lemma collect_rows_tickers (self : valuator) (jobs : list (Z * string))
    (total : Z) (c : pe_cache) :
  exists rows c',
    collect_rows self jobs total c = (Ok rows, c') /\
    map row.Ticker rows = map snd jobs.
Proof.
  revert c. induction jobs as [|[i ticker] rest IH]; intros c; cbn [collect_rows].
  - exists [], c. split; reflexivity.
  - unfold bind, try_except, ret.
    destruct (process_stock_cases self ticker i total c)
      as [(sd & fv & c1 & _ & _ & Ht & Hp)|[_ Hp]]; rewrite Hp; [rewrite Ht|];
      match goal with
      | |- context [collect_rows self rest total ?c0] =>
          destruct (IH c0) as (rows & c2 & -> & Hts)
      end;
      eexists (_ :: rows), c2; (split; [reflexivity|]);
      cbn [map snd row.Ticker error_row]; rewrite Hts; reflexivity.
Qed.

(** One turn of the collection loop. *)
Lemma collect_rows_step (self : valuator) (i : Z) (ticker : string)
    (rest : list (Z * string)) (total : Z) (c c1 : pe_cache) (r : row.t) :
  process_stock self ticker i total c = (Ok r, c1) ->
  collect_rows self ((i, ticker) :: rest) total c
  = match collect_rows self rest total c1 with
    | (Ok rows, c2) => (Ok (r :: rows), c2)
    | (Raise e, c2) => (Raise e, c2)
    end.
Proof.
  intros H. cbn [collect_rows]. unfold bind, try_except. rewrite H. reflexivity.
Qed.

Lemma collect_rows_app (self : valuator) (jobs1 jobs2 : list (Z * string))
    (total : Z) (c : pe_cache) :
  collect_rows self (jobs1 ++ jobs2) total c
  = (do! rows1 := collect_rows self jobs1 total in
     do! rows2 := collect_rows self jobs2 total in
     ret (rows1 ++ rows2)) c.
Proof.
  unfold bind, ret.
  revert c. induction jobs1 as [|[i t] rest IH]; intros c.
  - cbn [app collect_rows]. unfold ret.
    destruct (collect_rows self jobs2 total c) as [[rows|e] c']; reflexivity.
  - destruct (process_stock_returns self t i total c) as (r & c1 & Hp).
    cbn [app].
    rewrite (collect_rows_step self i t (rest ++ jobs2) total c c1 r Hp).
    rewrite (collect_rows_step self i t rest total c c1 r Hp).
    rewrite IH.
    destruct (collect_rows self rest total c1) as [[rows1|e1] c2]; [|reflexivity].
    destruct (collect_rows self jobs2 total c2) as [[rows2|e2] c3]; reflexivity.
Qed.

(** The futures that are not read leave the cache that reading them would
    leave. *)
Lemma run_unread_cache (self : valuator) (jobs : list (Z * string)) (total : Z)
    (c : pe_cache) :
  run_unread self jobs total c = (Ok tt, (collect_rows self jobs total c).2).
Proof.
  revert c. induction jobs as [|[i t] rest IH]; intros c; [reflexivity|].
  destruct (process_stock_returns self t i total c) as (r & c1 & Hp).
  cbn [run_unread]. rewrite (collect_rows_step self i t rest total c c1 r Hp).
  rewrite Hp. cbn [snd]. rewrite IH.
  destruct (collect_rows self rest total c1) as [[rows|e] c2]; reflexivity.
Qed.

(** X18. [run_valuation] under a schedule of the pool, for every valuator.
    When the batch timeout does not fire it does not raise and returns one
    row per ticker, in the order in which the futures complete: the tickers
    of the rows are a permutation of the ticker list.  An empty ticker list
    gives no rows.  When the timeout fires before the last future is
    yielded it raises [TimeoutError], the rows collected so far are lost,
    and the cache is the one that the run without the timeout leaves. *)
Theorem run_valuation_rows (self : valuator) (tickers : list string)
    (pool : schedule) (c : pe_cache) :
  (batch_timeout pool = None ->
   exists rows c',
     run_valuation self tickers pool c = (Ok rows, c') /\
     map row.Ticker rows
     = map snd (as_completed (length tickers) (enumerate_tickers tickers)
                  (picks pool)) /\
     map row.Ticker rows ≡ₚ tickers /\
     length rows = length tickers) /\
  run_valuation self [] pool c = (Ok [], c) /\
  (forall k, batch_timeout pool = Some k -> (k < length tickers)%nat ->
     run_valuation self tickers pool c
     = (Raise TimeoutError,
        (run_valuation self tickers
           {| picks := picks pool; batch_timeout := None |} c).2)).
Proof.
  split; [|split].
  - intros Hpool. unfold run_valuation. rewrite Hpool.
    destruct (collect_rows_tickers self
                (as_completed (length tickers) (enumerate_tickers tickers)
                   (picks pool))
                (Z.of_nat (length tickers)) c) as (rows & c' & H & Hts).
    pose proof (completed_tickers tickers (picks pool)) as Hperm.
    rewrite <- Hts in Hperm.
    exists rows, c'. split; [exact H|]. split; [exact Hts|].
    split; [exact Hperm|].
    rewrite <- (Permutation_length Hperm), length_map. reflexivity.
  - unfold run_valuation. destruct (batch_timeout pool); reflexivity.
  - intros k Hpool Hk. unfold run_valuation. rewrite Hpool.
    rewrite (proj2 (Nat.ltb_lt _ _) Hk). cbn [batch_timeout picks].
    set (futures := as_completed _ _ _).
    set (total := Z.of_nat _).
    assert (E : collect_rows self futures total c
                = collect_rows self (take k futures ++ drop k futures) total c)
      by (rewrite take_drop; reflexivity).
    rewrite E, collect_rows_app. unfold bind, throw.
    destruct (collect_rows_tickers self (take k futures) total c)
      as (rows1 & c1 & -> & _).
    rewrite run_unread_cache.
    destruct (collect_rows_tickers self (drop k futures) total c1)
      as (rows2 & c2 & -> & _).
    reflexivity.
Qed.



